(** * KaskMan: the self-improvement engine

    A shallow embedding of [architecture/self-improvement-algorithms.py]
    (class [SelfImprovementEngine]) and the properties of its
    pattern-to-action control loop.

    Conventions of the embedding.
    - A Python [float] is an IEEE-754 binary64 value: Rocq's primitive
      [float], whose operations are specified by [SpecFloat].
    - A coroutine is a computation in the monad [M]: given the history of
      observable events so far (calls to collaborators, log lines, sleeps)
      it returns a value or raises an exception, and emits new events.
    - Methods the class calls but does not define (the analysers, the
      generators, the implementers, the model updaters, the database
      handle) are collaborators: their answers come from an [environment]
      and may depend on everything that happened before the call.
    - An exception is an instance of Python's [Exception], the class the
      handlers of the source catch. *)

From Stdlib Require Import ZArith List String Ascii Bool Lia Permutation Sorted.
From Stdlib Require Import Floats Uint63.
Import ListNotations.

Set Warnings "-inexact-float,-register-all,-unused-intro-pattern".

(** * Part I: the embedding *)

(** ** Binary64 arithmetic as Python uses it *)

Module PyFloat.

(** [min(a, b)] of two floats: the builtin keeps its first argument
    unless the second is strictly smaller. *)
Definition py_min (a b : float) : float := if (b <? a)%float then b else a.

(** [max(a, b)]: the first argument unless the second is strictly larger. *)
Definition py_max (a b : float) : float := if (a <? b)%float then b else a.

(** [float(n)] for a size [n] as [len] returns it ([0 <= n < 2^63]). *)
Definition float_of_int (n : Z) : float := of_uint63 (Uint63.of_Z n).

(** [a <= b] as a proposition. *)
Definition fle (a b : float) : Prop := (a <=? b)%float = true.

(** A binary64 value of at least [2 ^ k]: an infinity, or a normal number
    of exponent at least [k - 52]. *)
Definition at_least_pow2 (k : Z) (x : spec_float) : Prop :=
  x = S754_infinity false \/
  exists m e, x = S754_finite false m e /\
              (k - 52 <= e)%Z /\ (2 ^ 52 <= Zpos m < 2 ^ 53)%Z.

End PyFloat.

Import PyFloat.

(** ** Python values *)

(** The values that reach the engine untyped ([Any]): pattern payloads,
    configuration entries, metric values. *)
Inductive pyval : Type :=
| VNone
| VBool (b : bool)
| VInt (n : Z)
| VFloat (f : float)
| VStr (s : string)
| VList (l : list pyval)
| VDict (d : list (string * pyval)).

(** A [dict] with string keys, in insertion order. *)
Definition dict := list (string * pyval).

(** Truth value of an object ([bool(v)], as [not v] tests it). *)
Definition truthy (v : pyval) : bool :=
  match v with
  | VNone => false
  | VBool b => b
  | VInt n => negb (n =? 0)%Z
  | VFloat f => negb (f =? 0)%float
  | VStr s => negb (s =? "")%string
  | VList l => match l with [] => false | _ :: _ => true end
  | VDict d => match d with [] => false | _ :: _ => true end
  end.

(** [d.get(key)] *)
Fixpoint dict_get (d : dict) (key : string) : option pyval :=
  match d with
  | [] => None
  | (k, v) :: d' => if (k =? key)%string then Some v else dict_get d' key
  end.

(** [d.get(key, default)] *)
Definition dict_get_default (d : dict) (key : string) (default : pyval) : pyval :=
  match dict_get d key with Some v => v | None => default end.

(** [d[key] = v]: an existing key keeps its position. *)
Fixpoint dict_set (d : dict) (key : string) (v : pyval) : dict :=
  match d with
  | [] => [(key, v)]
  | (k, w) :: d' =>
      if (k =? key)%string then (k, v) :: d' else (k, w) :: dict_set d' key v
  end.

(** [x or []] for a nullable list column. *)
Definition or_empty {A : Type} (x : option (list A)) : list A :=
  match x with Some l => l | None => [] end.

(** ** Data model *)

Inductive ImprovementType : Type :=
| PERFORMANCE | ACCURACY | EFFICIENCY | COST | RELIABILITY | SCALABILITY.

Inductive LearningMode : Type :=
| SUPERVISED | UNSUPERVISED | REINFORCEMENT | TRANSFER | FEDERATED.

(** Structured learning outcome from project completion. *)
Record LearningOutcome : Type := {
  project_id : string;
  outcome_type : string;
  success_score : float;
  completion_time : float;
  resource_utilization : dict;
  quality_metrics : dict;
  lessons_learned : list string;
  patterns_identified : list pyval;
  improvement_suggestions : list string;
  timestamp : Z
}.

(** System optimization recommendation. *)
Record SystemOptimization : Type := {
  optimization_type : ImprovementType;
  component : string;
  current_value : float;
  target_value : float;
  improvement_percentage : float;
  implementation_effort : string;
  expected_impact : string;
  risk_level : string;
  implementation_steps : list string;
  validation_criteria : list string
}.

(** A pattern report: the dictionary with keys ['type'], ['data'] and
    ['confidence'] that [analyze_patterns] builds. *)
Record pattern : Type := {
  pattern_type : string;
  pattern_data : pyval;
  pattern_confidence : float
}.

(** A row of the query of [collect_learning_outcomes]. *)
Record outcome_row : Type := {
  row_project_id : string;
  row_outcome_type : string;
  row_impact_score : float;
  row_completion_hours : float;
  row_lessons_learned : option (list string);
  row_patterns_identified : option (list pyval);
  row_recommendations : option (list string);
  row_created_at : Z
}.

(** A row of the query of [get_resource_metrics]. *)
Record metric_row : Type := {
  metric_name : string;
  avg_value : pyval
}.

(** The row of the query of [get_quality_metrics]. *)
Record quality_row : Type := {
  total_artifacts : pyval;
  avg_quality : pyval
}.

(** ** Collaborators, events and exceptions *)

(** The methods the engine awaits without defining them. *)
Inductive analyzer : Type :=
| analyze_success_factors | analyze_failure_modes | analyze_resource_patterns
| analyze_agent_patterns | analyze_temporal_patterns.

Inductive generator : Type :=
| generate_success_factor_improvements | generate_failure_mode_improvements
| generate_resource_improvements | generate_agent_improvements
| generate_temporal_improvements.

Inductive implementer : Type :=
| implement_performance_improvement | implement_efficiency_improvement
| implement_reliability_improvement | implement_scalability_improvement.

Inductive updater : Type :=
| update_success_prediction_model | update_resource_estimation_model
| update_quality_prediction_model | update_agent_performance_model.

(** The three queries sent to the database handle. *)
Inductive query : Type :=
| learning_outcomes_query | resource_metrics_query | quality_metrics_query.

(** An instance of [Exception]: its class name and its [str]. *)
Record exn : Type := { exn_class : string; exn_str : string }.

(** What an observer of the engine sees, in order. *)
Inductive event : Type :=
| EvQuery (q : query) (args : list string)
| EvAnalyze (a : analyzer) (outcomes : list LearningOutcome)
| EvGenerate (g : generator) (data : pyval)
| EvAttempt (improvement : SystemOptimization)
| EvImplement (i : implementer) (improvement : SystemOptimization)
| EvRecord (improvement : SystemOptimization)
| EvPrepareTraining (outcomes : list LearningOutcome)
| EvUpdate (u : updater) (training_data : pyval)
| EvHealthCheck
| EvLogInfo (message : string)
| EvLogError (message : string)
| EvSleep (delay : pyval).

Definition trace := list event.

(** Outcome of a call: a value, or a raised exception. *)
Inductive result (A : Type) : Type :=
| Ok (a : A)
| Raise (e : exn).

Arguments Ok {A} a.
Arguments Raise {A} e.

(** The collaborators of one engine: each answers from the history of
    events before the call and from its arguments. *)
Record environment : Type := {
  db_learning_outcomes : trace -> result (list outcome_row);
  db_resource_metrics : trace -> string -> result (list metric_row);
  db_quality_metrics : trace -> string -> result quality_row;
  run_analyzer : analyzer -> trace -> list LearningOutcome -> result pyval;
  run_generator : generator -> trace -> pyval -> result (list SystemOptimization);
  run_implementer : implementer -> trace -> SystemOptimization -> result unit;
  run_record_improvement : trace -> SystemOptimization -> result unit;
  run_prepare_training_data : trace -> list LearningOutcome -> result pyval;
  run_updater : updater -> trace -> pyval -> result unit;
  run_system_health_check : trace -> result unit
}.

(** ** The monad of coroutines *)

(** A computation reads the history and yields its outcome together with
    the events it emitted. *)
Definition M (A : Type) : Type := trace -> result A * trace.

Definition ret {A : Type} (a : A) : M A := fun _ => (Ok a, []).

Definition bind {A B : Type} (m : M A) (f : A -> M B) : M B :=
  fun h =>
    match m h with
    | (Ok a, es) =>
        match f a (h ++ es) with
        | (r, es') => (r, es ++ es')
        end
    | (Raise e, es) => (Raise e, es)
    end.

Definition raise {A : Type} (e : exn) : M A := fun _ => (Raise e, []).

(** An effect with no answer: a log line, a sleep, a marker. *)
Definition emit (ev : event) : M unit := fun _ => (Ok tt, [ev]).

(** A call to a collaborator: the call is observed, then it answers. *)
Definition call {A : Type} (ev : event) (answer : trace -> result A) : M A :=
  fun h => (answer h, [ev]).

(** [try: body except Exception as e: handler e] *)
Definition try_except {A : Type} (body : M A) (handler : exn -> M A) : M A :=
  fun h =>
    match body h with
    | (Ok a, es) => (Ok a, es)
    | (Raise e, es) =>
        match handler e (h ++ es) with
        | (r, es') => (r, es ++ es')
        end
    end.

Declare Scope monad_scope.
Delimit Scope monad_scope with monad.
Notation "x <- m ;; k" := (bind m (fun x => k))
  (at level 61, m at next level, right associativity) : monad_scope.
Notation "m ;;; k" := (bind m (fun _ => k))
  (at level 61, right associativity) : monad_scope.

Local Open Scope monad_scope.

(** [for x in l: body x] *)
Fixpoint for_each {A : Type} (body : A -> M unit) (l : list A) : M unit :=
  match l with
  | [] => ret tt
  | x :: l' => body x ;;; for_each body l'
  end.

(** [out = []; for x in l: out.append(await f x)] *)
Fixpoint map_m {A B : Type} (f : A -> M B) (l : list A) : M (list B) :=
  match l with
  | [] => ret []
  | x :: l' => y <- f x ;; ys <- map_m f l' ;; ret (y :: ys)
  end.

(** The events a computation emits after history [h], and its outcome. *)
Definition events_of {A : Type} (m : M A) (h : trace) : trace := snd (m h).
Definition outcome_of {A : Type} (m : M A) (h : trace) : result A := fst (m h).

(** ** The engine *)

(** The least integer that [float] cannot hold: adding it to the clock
    raises [OverflowError]. *)
Definition float_overflow_bound : Z := (2 ^ 1024 - 2 ^ 970)%Z.

(** [asyncio.sleep(delay)]: the delay is compared with zero, which raises
    [TypeError] unless it is a number; a delay that is not positive returns
    at once; a positive one is added to the clock of the loop, which raises
    [OverflowError] for an integer beyond the floats; otherwise the
    coroutine sleeps.  [EvSleep] records the call that did not raise, with
    its delay; how long the call lasts is not part of the model. *)
Definition asyncio_sleep (delay : pyval) : M unit :=
  match delay with
  | VInt n =>
      if (n <? float_overflow_bound)%Z then emit (EvSleep delay)
      else raise {| exn_class := "OverflowError";
                    exn_str := "int too large to convert to float" |}
  | VFloat _ | VBool _ => emit (EvSleep delay)
  | _ => raise {| exn_class := "TypeError";
                  exn_str := "'<=' not supported between instances" |}
  end.

Definition logger_info (message : string) : M unit := emit (EvLogInfo message).
Definition logger_error (message : string) : M unit := emit (EvLogError message).

(** *** Helper methods *)

(** [len(data) if isinstance(data, list) else 1] *)
Definition sample_size (data : pyval) : Z :=
  match data with
  | VList l => Z.of_nat (List.length l)
  | _ => 1%Z
  end.

(** Calculate confidence score for pattern data. *)
Definition calculate_confidence (data : pyval) : float :=
  if negb (truthy data) then 0%float
  else py_min 1 (float_of_int (sample_size data) / 100).

(** The confidence of a list payload as a function of its length:
    [min(1.0, n / 100.0)], and [0.0] for the empty list. *)
Definition ratio (n : Z) : float := (float_of_int n / 100)%float.

Definition confidence_at (n : Z) : float :=
  if (n =? 0)%Z then 0%float else py_min 1 (ratio n).

(** Convert impact level to numeric score:
    [{'low': 0.3, 'medium': 0.6, 'high': 1.0}.get(impact, 0.0)]. *)
Definition impact_score (impact : string) : float :=
  if (impact =? "low")%string then 0.3%float
  else if (impact =? "medium")%string then 0.6%float
  else if (impact =? "high")%string then 1%float
  else 0%float.

(** Convert effort level to feasibility score:
    [{'low': 1.0, 'medium': 0.6, 'high': 0.3}.get(effort, 0.0)]. *)
Definition feasibility_score (effort : string) : float :=
  if (effort =? "low")%string then 1%float
  else if (effort =? "medium")%string then 0.6%float
  else if (effort =? "high")%string then 0.3%float
  else 0%float.

(** The sort key of [generate_improvements]. *)
Definition ranking_score (x : SystemOptimization) : float :=
  (impact_score (expected_impact x) * feasibility_score (implementation_effort x))%float.

(** *** [list.sort(key=..., reverse=True)]

    The builtin sort is stable, also under [reverse=True]: elements with
    equal keys keep their original order.  It compares keys with [<]
    only.  Stable insertion computes the same list. *)
Section StableSort.
Context {A : Type}.
Variable below : A -> A -> bool.   (* [below x y]: key x < key y *)

Fixpoint insert_desc (x : A) (l : list A) : list A :=
  match l with
  | [] => [x]
  | y :: l' => if below x y then y :: insert_desc x l' else x :: l
  end.

Definition sort_desc (l : list A) : list A := fold_right insert_desc [] l.

(** Neither is below the other: the keys are equal. *)
Definition tie (x y : A) : bool := negb (below x y) && negb (below y x).
End StableSort.

Definition ranks_below (x y : SystemOptimization) : bool :=
  (ranking_score x <? ranking_score y)%float.

(** The condition under which [execute_safe_improvements] applies a proposal. *)
Definition safe_to_apply (improvement : SystemOptimization) : bool :=
  (risk_level improvement =? "low")%string &&
  (implementation_effort improvement =? "low")%string &&
  existsb (String.eqb (expected_impact improvement)) ["medium"; "high"]%string.

(** The example configuration of the module (the members of the two
    enumerations are written by their values). *)
Definition SELF_IMPROVEMENT_CONFIG : dict :=
  [ ("learning_interval", VInt 300);
    ("confidence_threshold", VFloat 0.7);
    ("auto_improvement_enabled", VBool true);
    ("max_concurrent_experiments", VInt 5);
    ("safety_checks_enabled", VBool true);
    ("rollback_on_failure", VBool true);
    ("learning_modes", VList [VStr "supervised"; VStr "unsupervised"; VStr "reinforcement"]);
    ("optimization_targets", VList [VStr "performance"; VStr "efficiency"; VStr "reliability"])
  ]%string.

Section Engine.

Variable env : environment.     (* self.db and the undefined methods *)
Variable config : dict.         (* self.config *)

(** Get resource utilization metrics for a project. *)
Definition get_resource_metrics (pid : string) : M dict :=
  results <- call (EvQuery resource_metrics_query [pid])
                  (fun h => db_resource_metrics env h pid) ;;
  ret (fold_left (fun d row => dict_set d (metric_name row) (avg_value row))
                 results []).

(** Get quality metrics for a project. *)
Definition get_quality_metrics (pid : string) : M dict :=
  result <- call (EvQuery quality_metrics_query [pid])
                 (fun h => db_quality_metrics env h pid) ;;
  ret [ ("total_artifacts", total_artifacts result);
        ("average_quality", avg_quality result) ]%string.

(** Collect learning outcomes from completed projects and tasks. *)
Definition collect_learning_outcomes : M (list LearningOutcome) :=
  results <- call (EvQuery learning_outcomes_query [])
                  (db_learning_outcomes env) ;;
  map_m (fun row =>
           resource_metrics <- get_resource_metrics (row_project_id row) ;;
           quality_metrics <- get_quality_metrics (row_project_id row) ;;
           ret {| project_id := row_project_id row;
                  outcome_type := row_outcome_type row;
                  success_score := py_max 0 (py_min 1 (row_impact_score row));
                  completion_time := row_completion_hours row;
                  resource_utilization := resource_metrics;
                  quality_metrics := quality_metrics;
                  lessons_learned := or_empty (row_lessons_learned row);
                  patterns_identified := or_empty (row_patterns_identified row);
                  improvement_suggestions := or_empty (row_recommendations row);
                  timestamp := row_created_at row |})
        results.

(** One step of [analyze_patterns]: run an analyser and score its result. *)
Definition analyze_one (a : analyzer) (type : string)
           (outcomes : list LearningOutcome) : M pattern :=
  data <- call (EvAnalyze a outcomes) (fun h => run_analyzer env a h outcomes) ;;
  ret {| pattern_type := type;
         pattern_data := data;
         pattern_confidence := calculate_confidence data |}.

(** Analyze patterns in learning outcomes. *)
Definition analyze_patterns (outcomes : list LearningOutcome) : M (list pattern) :=
  match outcomes with
  | [] => ret []
  | _ :: _ =>
      p1 <- analyze_one analyze_success_factors "success_factors" outcomes ;;
      p2 <- analyze_one analyze_failure_modes "failure_modes" outcomes ;;
      p3 <- analyze_one analyze_resource_patterns "resource_optimization" outcomes ;;
      p4 <- analyze_one analyze_agent_patterns "agent_performance" outcomes ;;
      p5 <- analyze_one analyze_temporal_patterns "temporal_patterns" outcomes ;;
      ret [p1; p2; p3; p4; p5]
  end.

(** The generator [generate_improvements] dispatches a pattern type to. *)
Definition generator_for (type : string) : option generator :=
  if (type =? "success_factors")%string then Some generate_success_factor_improvements
  else if (type =? "failure_modes")%string then Some generate_failure_mode_improvements
  else if (type =? "resource_optimization")%string then Some generate_resource_improvements
  else if (type =? "agent_performance")%string then Some generate_agent_improvements
  else if (type =? "temporal_patterns")%string then Some generate_temporal_improvements
  else None.

(** The loop of [generate_improvements]: the proposals in the order the
    patterns yield them. *)
Fixpoint gather_improvements (patterns : list pattern) : M (list SystemOptimization) :=
  match patterns with
  | [] => ret []
  | p :: rest =>
      if (pattern_confidence p <? 0.7)%float then gather_improvements rest
      else
        match generator_for (pattern_type p) with
        | Some g =>
            found <- call (EvGenerate g (pattern_data p))
                          (fun h => run_generator env g h (pattern_data p)) ;;
            more <- gather_improvements rest ;;
            ret (found ++ more)
        | None => gather_improvements rest
        end
  end.

(** Generate system improvement recommendations based on patterns. *)
Definition generate_improvements (patterns : list pattern) : M (list SystemOptimization) :=
  improvements <- gather_improvements patterns ;;
  ret (sort_desc ranks_below improvements).

(** The implementer [implement_improvement] dispatches a category to. *)
Definition implementer_for (t : ImprovementType) : option implementer :=
  match t with
  | PERFORMANCE => Some implement_performance_improvement
  | EFFICIENCY => Some implement_efficiency_improvement
  | RELIABILITY => Some implement_reliability_improvement
  | SCALABILITY => Some implement_scalability_improvement
  | ACCURACY | COST => None
  end.

(** Implement a specific system improvement.  [EvAttempt] marks the call. *)
Definition implement_improvement (improvement : SystemOptimization) : M unit :=
  emit (EvAttempt improvement) ;;;
  match implementer_for (optimization_type improvement) with
  | Some i => call (EvImplement i improvement)
                   (fun h => run_implementer env i h improvement)
  | None => ret tt
  end ;;;
  call (EvRecord improvement) (fun h => run_record_improvement env h improvement).

(** The body of the loop of [execute_safe_improvements]. *)
Definition execute_one (improvement : SystemOptimization) : M unit :=
  if safe_to_apply improvement then
    try_except
      (implement_improvement improvement ;;;
       logger_info ("Automatically implemented improvement: " ++ component improvement))
      (fun e =>
         logger_error ("Failed to implement improvement " ++ component improvement
                       ++ ": " ++ exn_str e))
  else ret tt.

(** Execute improvements that are safe to apply automatically. *)
Definition execute_safe_improvements (improvements : list SystemOptimization) : M unit :=
  for_each execute_one improvements.

(** Update ML models with new learning outcomes. *)
Definition update_learning_models (outcomes : list LearningOutcome) : M unit :=
  match outcomes with
  | [] => ret tt
  | _ :: _ =>
      training_data <- call (EvPrepareTraining outcomes)
                            (fun h => run_prepare_training_data env h outcomes) ;;
      for_each (fun u => call (EvUpdate u training_data)
                              (fun h => run_updater env u h training_data))
               [ update_success_prediction_model; update_resource_estimation_model;
                 update_quality_prediction_model; update_agent_performance_model ]
  end.

Definition system_health_check : M unit :=
  call EvHealthCheck (run_system_health_check env).

(** The [try] block of the loop: one cycle. *)
Definition learning_cycle : M unit :=
  new_outcomes <- collect_learning_outcomes ;;
  patterns <- analyze_patterns new_outcomes ;;
  recommendations <- generate_improvements patterns ;;
  execute_safe_improvements recommendations ;;;
  update_learning_models new_outcomes ;;;
  system_health_check ;;;
  asyncio_sleep (dict_get_default config "learning_interval" (VInt 300)).

(** One iteration of [while True]: the cycle under its handler. *)
Definition loop_iteration : M unit :=
  try_except learning_cycle
    (fun e =>
       logger_error ("Error in continuous learning loop: " ++ exn_str e) ;;;
       asyncio_sleep (VInt 60)).

(** The first [n] iterations of [while True]. *)
Fixpoint iterate (n : nat) : M unit :=
  match n with
  | O => ret tt
  | S k => loop_iteration ;;; iterate k
  end.

(** Main continuous learning loop, observed for [n] iterations: the
    outcome is [Ok] when all [n] ran, [Raise] when an exception left the
    loop before. *)
Definition continuous_learning_loop (n : nat) : M unit :=
  logger_info "Starting continuous learning loop" ;;; iterate n.

End Engine.

(** ** Auxiliary definitions of the proofs *)

(** The proposals [implement_improvement] was called with, in order. *)
Fixpoint attempted (es : trace) : list SystemOptimization :=
  match es with
  | [] => []
  | EvAttempt x :: es' => x :: attempted es'
  | _ :: es' => attempted es'
  end.

(** No sleep among the events. *)
Definition is_sleep (ev : event) : bool :=
  match ev with EvSleep _ => true | _ => false end.

(** The three labels of the ordinal scale, and every other string. *)
Inductive level : Type := Low | Medium | High | Unrecognized.

Definition level_of (label : string) : level :=
  if (label =? "low")%string then Low
  else if (label =? "medium")%string then Medium
  else if (label =? "high")%string then High
  else Unrecognized.

Definition impact_of_level (l : level) : float :=
  match l with
  | Low => 0.3%float | Medium => 0.6%float | High => 1%float | Unrecognized => 0%float
  end.

Definition feasibility_of_level (l : level) : float :=
  match l with
  | Low => 1%float | Medium => 0.6%float | High => 0.3%float | Unrecognized => 0%float
  end.

Definition score_of_levels (impact effort : level) : float :=
  (impact_of_level impact * feasibility_of_level effort)%float.

(** The position of a score among the seven values the two tables can
    produce: 0, 0.09, 0.18, 0.3, 0.36, 0.6, 1. *)
Definition rank_of_levels (impact effort : level) : nat :=
  match impact, effort with
  | Unrecognized, _ | _, Unrecognized => 0
  | Low, High => 1
  | Low, Medium | Medium, High => 2
  | Low, Low | High, High => 3
  | Medium, Medium => 4
  | Medium, Low | High, Medium => 5
  | High, Low => 6
  end.

Definition rank (x : SystemOptimization) : nat :=
  rank_of_levels (level_of (expected_impact x)) (level_of (implementation_effort x)).

(** The labels of the ordinal scale. *)
Definition scale : list string := ["low"; "medium"; "high"]%string.

(** A proposal whose impact and effort labels are both on the scale. *)
Definition recognized (x : SystemOptimization) : Prop :=
  In (expected_impact x) scale /\ In (implementation_effort x) scale.

(** Two proposals tie in the ranking. *)
Definition same_rank (x y : SystemOptimization) : bool :=
  (ranking_score y =? ranking_score x)%float.

(** [x] is ranked at least as high as [y]. *)
Definition ranked_no_lower (x y : SystemOptimization) : Prop :=
  fle (ranking_score y) (ranking_score x).

(** Every event a computation emits satisfies [P], whatever the history. *)
Definition emits {A : Type} (P : event -> Prop) (m : M A) : Prop :=
  forall h, Forall P (events_of m h).

(** A computation that raises has emitted only events satisfying [P]. *)
Definition emits_before_raise {A : Type} (P : event -> Prop) (m : M A) : Prop :=
  forall h e es, m h = (Raise e, es) -> Forall P es.

(** A computation that returns has emitted [ev] last. *)
Definition ends_with {A : Type} (ev : event) (m : M A) : Prop :=
  forall h a es, m h = (Ok a, es) -> exists es0, es = es0 ++ [ev].

Definition not_a_sleep (ev : event) : Prop := is_sleep ev = false.

(** The four model updates of [update_learning_models], in call order. *)
Definition model_updaters : list updater :=
  [ update_success_prediction_model; update_resource_estimation_model;
    update_quality_prediction_model; update_agent_performance_model ].

(** The pattern types of [analyze_patterns], in the order it reports them. *)
Definition pattern_types : list string :=
  [ "success_factors"; "failure_modes"; "resource_optimization";
    "agent_performance"; "temporal_patterns" ]%string.

(** A pattern that passes the gate of [generate_improvements] and has a
    generator: the patterns whose generator is called. *)
Definition clears_gate (p : pattern) : bool :=
  negb (pattern_confidence p <? 0.7)%float &&
  match generator_for (pattern_type p) with Some _ => true | None => false end.

(** The call [generate_improvements] makes for a pattern of known type. *)
Definition generator_call (p : pattern) : list event :=
  match generator_for (pattern_type p) with
  | Some g => [EvGenerate g (pattern_data p)]
  | None => []
  end.

(** A list payload of at least 70 elements. *)
Definition has_70_observations (data : pyval) : bool :=
  match data with
  | VList l => (70 <=? Z.of_nat (List.length l))%Z
  | _ => false
  end.

(** The value of the last row for a metric name, if there is one. *)
Definition last_value (rows : list metric_row) (name : string) : option pyval :=
  fold_left (fun found row =>
               if (metric_name row =? name)%string then Some (avg_value row) else found)
            rows None.

(** The queries [collect_learning_outcomes] sends for one row. *)
Definition metric_queries (row : outcome_row) : list event :=
  [ EvQuery resource_metrics_query [row_project_id row];
    EvQuery quality_metrics_query [row_project_id row] ].

(** The number of sleeps among the events. *)
Definition count_sleeps (es : trace) : nat := List.length (filter is_sleep es).

(** Whatever its outcome, a computation has slept exactly [n] times. *)
Definition sleeps_exactly {A : Type} (n : nat) (m : M A) : Prop :=
  forall h, count_sleeps (events_of m h) = n.

(** A computation that returns has slept exactly once; one that raises
    has not slept. *)
Definition sleeps_on_return {A : Type} (m : M A) : Prop :=
  forall h, count_sleeps (events_of m h)
            = match outcome_of m h with Ok _ => 1 | Raise _ => 0 end.

(** The values [asyncio.sleep] accepts as a delay. *)
Definition numeric (v : pyval) : bool :=
  match v with
  | VInt _ | VFloat _ | VBool _ => true
  | _ => false
  end.

(** A computation returns only when [Q] holds. *)
Definition returns_only_if {A : Type} (Q : Prop) (m : M A) : Prop :=
  forall h a es, m h = (Ok a, es) -> Q.

(** ** Sample data *)

(** A proposal with the given category, component and labels. *)
Definition proposal (t : ImprovementType) (name effort impact risk : string)
  : SystemOptimization :=
  {| optimization_type := t;
     component := name;
     current_value := 100;
     target_value := 80;
     improvement_percentage := (-20);
     implementation_effort := effort;
     expected_impact := impact;
     risk_level := risk;
     implementation_steps := ["apply"; "verify"]%string;
     validation_criteria := ["metric improves"]%string |}.

Definition cache_tuning := proposal PERFORMANCE "cache" "low" "high" "low".
Definition pool_resize := proposal EFFICIENCY "db-pool" "low" "medium" "low".
Definition retry_policy := proposal RELIABILITY "retry" "low" "high" "low".
Definition model_refit := proposal ACCURACY "model" "low" "high" "low".
Definition log_trim := proposal PERFORMANCE "logs" "low" "low" "low".
Definition shard_split := proposal SCALABILITY "shards" "medium" "medium" "low".

(** Two proposals with a label off the scale: an effort and an impact. *)
Definition billing_review := proposal COST "billing" "critical" "high" "low".
Definition vague_redesign := proposal PERFORMANCE "ui" "low" "unknown" "low".

(** Collaborators that always succeed and find nothing. *)
Definition quiet_env : environment :=
  {| db_learning_outcomes := fun _ => Ok [];
     db_resource_metrics := fun _ _ => Ok [];
     db_quality_metrics := fun _ _ => Ok {| total_artifacts := VInt 0; avg_quality := VNone |};
     run_analyzer := fun _ _ _ => Ok VNone;
     run_generator := fun _ _ _ => Ok [];
     run_implementer := fun _ _ _ => Ok tt;
     run_record_improvement := fun _ _ => Ok tt;
     run_prepare_training_data := fun _ _ => Ok VNone;
     run_updater := fun _ _ _ => Ok tt;
     run_system_health_check := fun _ => Ok tt |}.

Definition connection_refused : exn :=
  {| exn_class := "ConnectionError"; exn_str := "connection refused" |}.

(** As [quiet_env], but applying a change to the component [bad] fails. *)
Definition failing_env (bad : string) : environment :=
  {| db_learning_outcomes := fun _ => Ok [];
     db_resource_metrics := fun _ _ => Ok [];
     db_quality_metrics := fun _ _ => Ok {| total_artifacts := VInt 0; avg_quality := VNone |};
     run_analyzer := fun _ _ _ => Ok VNone;
     run_generator := fun _ _ _ => Ok [];
     run_implementer := fun _ _ x =>
       if (component x =? bad)%string then Raise connection_refused else Ok tt;
     run_record_improvement := fun _ _ => Ok tt;
     run_prepare_training_data := fun _ _ => Ok VNone;
     run_updater := fun _ _ _ => Ok tt;
     run_system_health_check := fun _ => Ok tt |}.

(** A batch of three rows whose raw scores are above, below and inside
    the unit interval. *)
Definition row_with_score (pid : string) (raw : float) : outcome_row :=
  {| row_project_id := pid;
     row_outcome_type := "delivery";
     row_impact_score := raw;
     row_completion_hours := 12;
     row_lessons_learned := None;
     row_patterns_identified := None;
     row_recommendations := Some ["cache results"]%string;
     row_created_at := 1700000000 |}.

Definition store_env (rows : list outcome_row) : environment :=
  {| db_learning_outcomes := fun _ => Ok rows;
     db_resource_metrics := fun _ _ =>
       Ok [ {| metric_name := "cpu"; avg_value := VFloat 0.5 |} ];
     db_quality_metrics := fun _ _ =>
       Ok {| total_artifacts := VInt 3; avg_quality := VFloat 0.8 |};
     run_analyzer := fun _ _ _ => Ok VNone;
     run_generator := fun _ _ _ => Ok [];
     run_implementer := fun _ _ _ => Ok tt;
     run_record_improvement := fun _ _ => Ok tt;
     run_prepare_training_data := fun _ _ => Ok VNone;
     run_updater := fun _ _ _ => Ok tt;
     run_system_health_check := fun _ => Ok tt |}.

Definition sample_rows : list outcome_row :=
  [row_with_score "p1" 1.4; row_with_score "p2" (-0.2); row_with_score "p3" 0.5].

(** What ingestion makes of [sample_rows]. *)
Definition sample_outcomes : list LearningOutcome :=
  match outcome_of (collect_learning_outcomes (store_env sample_rows)) [] with
  | Ok outcomes => outcomes
  | Raise _ => []
  end.

Definition store_timeout : exn :=
  {| exn_class := "TimeoutError"; exn_str := "store timed out" |}.

(** Collaborators whose store cannot be reached. *)
Definition unreachable_store_env : environment :=
  {| db_learning_outcomes := fun _ => Raise store_timeout;
     db_resource_metrics := fun _ _ => Raise store_timeout;
     db_quality_metrics := fun _ _ => Raise store_timeout;
     run_analyzer := fun _ _ _ => Ok VNone;
     run_generator := fun _ _ _ => Ok [];
     run_implementer := fun _ _ _ => Ok tt;
     run_record_improvement := fun _ _ => Ok tt;
     run_prepare_training_data := fun _ _ => Ok VNone;
     run_updater := fun _ _ _ => Ok tt;
     run_system_health_check := fun _ => Ok tt |}.

(** Collaborators whose resource estimation update fails. *)
Definition registry_down : exn :=
  {| exn_class := "RuntimeError"; exn_str := "registry unavailable" |}.

Definition failing_registry_env : environment :=
  {| db_learning_outcomes := fun _ => Ok sample_rows;
     db_resource_metrics := fun _ _ => Ok [];
     db_quality_metrics := fun _ _ => Ok {| total_artifacts := VInt 0; avg_quality := VNone |};
     run_analyzer := fun a _ _ =>
       match a with
       | analyze_success_factors => Ok (VList (repeat (VStr "observation") 80))
       | _ => Ok (VDict [("cpu", VFloat 0.9)]%string)
       end;
     run_generator := fun _ _ _ => Ok [shard_split; cache_tuning];
     run_implementer := fun _ _ _ => Ok tt;
     run_record_improvement := fun _ _ => Ok tt;
     run_prepare_training_data := fun _ _ => Ok (VStr "training batch");
     run_updater := fun u _ _ =>
       match u with
       | update_resource_estimation_model => Raise registry_down
       | _ => Ok tt
       end;
     run_system_health_check := fun _ => Ok tt |}.

(** Three patterns scored as [analyze_patterns] scores them: a list of 80
    observations, a list of 69, and a dictionary. *)
Definition scored (type : string) (data : pyval) : pattern :=
  {| pattern_type := type;
     pattern_data := data;
     pattern_confidence := calculate_confidence data |}.

Definition scored_patterns : list pattern :=
  [ scored "success_factors" (VList (repeat (VStr "observation") 80));
    scored "failure_modes" (VList (repeat (VStr "timeout") 69));
    scored "resource_optimization" (VDict [("cpu", VFloat 0.9)]) ]%string.

(** A deployment that asks for a stricter gate than the default. *)
Definition strict_config : dict := [("confidence_threshold", VFloat 0.9)]%string.

(** Collaborators whose generators all propose [found]. *)
Definition finding_env (found : list SystemOptimization) : environment :=
  {| db_learning_outcomes := fun _ => Ok [];
     db_resource_metrics := fun _ _ => Ok [];
     db_quality_metrics := fun _ _ => Ok {| total_artifacts := VInt 0; avg_quality := VNone |};
     run_analyzer := fun _ _ _ => Ok VNone;
     run_generator := fun _ _ _ => Ok found;
     run_implementer := fun _ _ _ => Ok tt;
     run_record_improvement := fun _ _ => Ok tt;
     run_prepare_training_data := fun _ _ => Ok VNone;
     run_updater := fun _ _ _ => Ok tt;
     run_system_health_check := fun _ => Ok tt |}.

Definition success_pattern (confidence : float) : pattern :=
  {| pattern_type := "success_factors";
     pattern_data := VList [VStr "pairing"; VStr "small batches"];
     pattern_confidence := confidence |}.

(** * Part II: properties *)

(** ** Facts of binary64 arithmetic *)

Module PyFloatFacts.

Local Open Scope Z_scope.

(** *** Comparison *)

Lemma SFcompare_antisym x y c :
  SFcompare x y = Some c -> SFcompare y x = Some (CompOpp c).
Proof.
  destruct x as [sx|sx| |sx mx ex], y as [sy|sy| |sy my ey]; simpl;
    try discriminate;
    try (intros [= <-]; try destruct sx; try destruct sy; reflexivity).
  intros [= <-]. f_equal.
  rewrite (Z.compare_antisym ex ey).
  change (Pos.compare_cont Eq my mx) with (Pos.compare_cont (CompOpp Eq) my mx).
  rewrite <- (Pos.compare_cont_antisym mx my Eq).
  destruct sx, sy; simpl; try reflexivity;
    destruct (ex ?= ey); simpl; try reflexivity;
    destruct (Pos.compare_cont Eq mx my); reflexivity.
Qed.

Lemma ltb_leb x y : (x <? y)%float = true -> (x <=? y)%float = true.
Proof.
  rewrite FloatAxioms.ltb_spec, FloatAxioms.leb_spec. unfold SFltb, SFleb.
  destruct (SFcompare _ _) as [[]|]; intros; congruence.
Qed.

Lemma ltb_asym x y : (x <? y)%float = true -> (y <? x)%float = false.
Proof.
  rewrite !FloatAxioms.ltb_spec. unfold SFltb.
  destruct (SFcompare (Prim2SF x) (Prim2SF y)) as [c|] eqn:E; try discriminate.
  rewrite (SFcompare_antisym _ _ _ E). destruct c; simpl; congruence.
Qed.

Lemma leb_not_ltb x y : (x <=? y)%float = true -> (y <? x)%float = false.
Proof.
  rewrite FloatAxioms.leb_spec, FloatAxioms.ltb_spec. unfold SFleb, SFltb.
  destruct (SFcompare (Prim2SF x) (Prim2SF y)) as [c|] eqn:E; try discriminate.
  rewrite (SFcompare_antisym _ _ _ E). destruct c; simpl; congruence.
Qed.

(** [x <= y] without [x < y] leaves [x == y]. *)
Lemma leb_not_ltb_eqb x y :
  (x <=? y)%float = true -> (x <? y)%float = false -> (y =? x)%float = true.
Proof.
  rewrite FloatAxioms.leb_spec, FloatAxioms.ltb_spec, FloatAxioms.eqb_spec. unfold SFleb, SFltb, SFeqb.
  destruct (SFcompare (Prim2SF x) (Prim2SF y)) as [c|] eqn:E; try discriminate.
  rewrite (SFcompare_antisym _ _ _ E). destruct c; simpl; congruence.
Qed.

(** A value that compares with another equals itself (it is no NaN). *)
Lemma ltb_eqb_refl x y : (x <? y)%float = true -> (x =? x)%float = true.
Proof.
  rewrite FloatAxioms.ltb_spec, FloatAxioms.eqb_spec. unfold SFltb, SFeqb.
  destruct (Prim2SF x) as [s|s| |s m e], (Prim2SF y) as [s'|s'| |s' m' e'];
    simpl; try discriminate; intros _; try destruct s; try reflexivity.
  all: rewrite Z.compare_refl, Pos.compare_cont_refl; reflexivity.
Qed.

(** Below zero is below one. *)
Lemma ltb_zero_one x : (x <? 0)%float = true -> (x <? 1)%float = true.
Proof.
  rewrite !FloatAxioms.ltb_spec.
  replace (Prim2SF 0) with (S754_zero false) by reflexivity.
  replace (Prim2SF 1) with (S754_finite false 4503599627370496 (-52)) by reflexivity.
  unfold SFltb, SFcompare.
  destruct (Prim2SF x) as [s|s| |s m e]; try destruct s; intros H;
    try discriminate H; reflexivity.
Qed.

(** *** Rounding: lower bounds *)

Lemma digits2_pos_bounds p :
  2 ^ (Zpos (digits2_pos p) - 1) <= Zpos p < 2 ^ Zpos (digits2_pos p).
Proof.
  induction p as [p IH|p IH|]; simpl digits2_pos.
  - rewrite Pos2Z.inj_succ.
    replace (Z.succ (Zpos (digits2_pos p)) - 1)
      with (Z.succ (Zpos (digits2_pos p) - 1)) by lia.
    rewrite !Z.pow_succ_r by lia. lia.
  - rewrite Pos2Z.inj_succ.
    replace (Z.succ (Zpos (digits2_pos p)) - 1)
      with (Z.succ (Zpos (digits2_pos p) - 1)) by lia.
    rewrite !Z.pow_succ_r by lia. lia.
  - simpl. lia.
Qed.

Lemma digits2_pos_unique p d :
  2 ^ (d - 1) <= Zpos p < 2 ^ d -> Zpos (digits2_pos p) = d.
Proof.
  intros [Hl Hu]. pose proof (digits2_pos_bounds p) as [Bl Bu].
  assert (0 < d) by (destruct d; simpl in Hu; lia).
  destruct (Z.lt_trichotomy (Zpos (digits2_pos p)) d) as [L|[E|G]]; auto; exfalso.
  - assert (2 ^ Zpos (digits2_pos p) <= 2 ^ (d - 1)) by (apply Z.pow_le_mono_r; lia).
    lia.
  - assert (2 ^ d <= 2 ^ (Zpos (digits2_pos p) - 1)) by (apply Z.pow_le_mono_r; lia).
    lia.
Qed.

Lemma shr_1_div2 mrs : 0 <= shr_m mrs -> shr_m (shr_1 mrs) = shr_m mrs / 2.
Proof.
  destruct mrs as [m r s]; simpl. intros Hm.
  destruct m as [|p|p]; [reflexivity| |lia].
  destruct p as [p|p|]; simpl.
  - change (Zpos p~1) with (2 * Zpos p + 1). apply Z.div_unique with 1; lia.
  - change (Zpos p~0) with (2 * Zpos p). apply Z.div_unique with 0; lia.
  - reflexivity.
Qed.

Lemma pow2_xO k : 2 ^ Zpos k~0 = 2 ^ Zpos k * 2 ^ Zpos k.
Proof.
  replace (Zpos k~0) with (Zpos k + Zpos k) by lia. apply Z.pow_add_r; lia.
Qed.

Lemma pow2_xI k : 2 ^ Zpos k~1 = 2 * (2 ^ Zpos k * 2 ^ Zpos k).
Proof.
  replace (Zpos k~1) with (1 + (Zpos k + Zpos k)) by lia.
  rewrite !Z.pow_add_r by lia. reflexivity.
Qed.

Lemma iter_shr_1_div k : forall mrs, 0 <= shr_m mrs ->
  shr_m (iter_pos shr_1 k mrs) = shr_m mrs / 2 ^ Zpos k.
Proof.
  induction k as [k IH|k IH|]; intros mrs Hm; simpl iter_pos.
  - assert (H1 : 0 <= shr_m (shr_1 mrs))
      by (rewrite shr_1_div2 by auto; apply Z.div_pos; lia).
    assert (H2 : 0 <= shr_m (iter_pos shr_1 k (shr_1 mrs)))
      by (rewrite IH by auto; apply Z.div_pos; lia).
    rewrite IH, IH, shr_1_div2 by auto.
    rewrite !Z.div_div by lia. rewrite pow2_xI. f_equal; lia.
  - assert (H2 : 0 <= shr_m (iter_pos shr_1 k mrs))
      by (rewrite IH by auto; apply Z.div_pos; lia).
    rewrite IH, IH by auto. rewrite !Z.div_div by lia. rewrite pow2_xO. reflexivity.
  - rewrite shr_1_div2 by auto. reflexivity.
Qed.

Lemma fexp64_eq e : -1021 <= e -> fexp prec emax e = e - 53.
Proof. unfold fexp, emin, prec, emax. lia. Qed.

(** First step of rounding: a mantissa of at least 53 bits is shifted down
    to exactly 53 bits. *)
Lemma shr_fexp_spec m e l :
  2 ^ 52 <= m -> -1074 <= e ->
  exists mrs,
    shr_fexp prec emax m e l = (mrs, e + (Zdigits2 m - 53)) /\
    53 <= Zdigits2 m /\
    2 ^ 52 <= shr_m mrs < 2 ^ 53.
Proof.
  intros Hm He.
  destruct m as [|p|p]; try (simpl in Hm; lia).
  pose proof (digits2_pos_bounds p) as [Bl Bu].
  set (d := Zpos (digits2_pos p)) in *.
  assert (Hd : 53 <= d).
  { destruct (Z_lt_le_dec d 53) as [L|]; auto.
    assert (2 ^ d <= 2 ^ 52) by (apply Z.pow_le_mono_r; lia). lia. }
  unfold shr_fexp. simpl Zdigits2. fold d.
  rewrite fexp64_eq by lia.
  replace (d + e - 53 - e) with (d - 53) by lia.
  assert (Hs : shr_m (shr_record_of_loc (Zpos p) l) = Zpos p)
    by (destruct l as [|[]]; reflexivity).
  destruct (d - 53) as [|k|k] eqn:Ek; try lia.
  - exists (shr_record_of_loc (Zpos p) l). simpl shr.
    split; [f_equal; lia|]. split; [lia|]. rewrite Hs.
    replace d with 53 in * by lia. simpl in Bl. lia.
  - exists (iter_pos shr_1 k (shr_record_of_loc (Zpos p) l)). simpl shr.
    split; [reflexivity|]. split; [lia|].
    rewrite iter_shr_1_div by (rewrite Hs; lia). rewrite Hs.
    assert (Hp : 2 ^ (d - 1) = 2 ^ 52 * 2 ^ Zpos k).
    { rewrite <- Z.pow_add_r by lia. f_equal. lia. }
    assert (Hq : 2 ^ d = 2 ^ 53 * 2 ^ Zpos k).
    { rewrite <- Z.pow_add_r by lia. f_equal. lia. }
    assert (0 < 2 ^ Zpos k) by (apply Z.pow_pos_nonneg; lia).
    split.
    + apply Z.div_le_lower_bound; lia.
    + apply Z.div_lt_upper_bound; lia.
Qed.

Lemma round_nearest_even_bounds m l :
  m <= round_nearest_even m l <= m + 1.
Proof.
  unfold round_nearest_even. destruct l as [|[]]; try destruct (Z.even m); lia.
Qed.

(** Rounding a positive mantissa of at least 53 bits never lowers the
    exponent and yields a normal number or an infinity. *)
Lemma binary_round_aux_lower sx m e l :
  2 ^ 52 <= m -> -1074 <= e ->
  binary_round_aux prec emax sx m e l = S754_infinity sx \/
  exists m' e',
    binary_round_aux prec emax sx m e l = S754_finite sx m' e' /\
    e <= e' /\ 2 ^ 52 <= Zpos m' < 2 ^ 53.
Proof.
  intros Hm He. unfold binary_round_aux.
  destruct (shr_fexp_spec m e l Hm He) as (mrs1 & E1 & Hd1 & Hb1).
  rewrite E1.
  pose proof (round_nearest_even_bounds (shr_m mrs1) (loc_of_shr_record mrs1)) as Hr.
  set (m2 := round_nearest_even (shr_m mrs1) (loc_of_shr_record mrs1)) in *.
  destruct (shr_fexp_spec m2 (e + (Zdigits2 m - 53)) loc_Exact)
    as (mrs2 & E2 & Hd2 & Hb2); try lia.
  rewrite E2.
  destruct (shr_m mrs2) as [|m3|m3] eqn:E3; try lia.
  destruct (_ <=? _); [right|left; reflexivity].
  exists m3, (e + (Zdigits2 m - 53) + (Zdigits2 m2 - 53)).
  split; [reflexivity|]. split; lia.
Qed.

Lemma iter_xO_pow p k : Zpos (Pos.iter xO p k) = Zpos p * 2 ^ Zpos k.
Proof.
  induction k as [|k IH] using Pos.peano_ind.
  - simpl. lia.
  - rewrite Pos.iter_succ, Pos2Z.inj_xO, IH, Pos2Z.inj_succ, Z.pow_succ_r by lia. lia.
Qed.

(** [float(n) >= 128] for a size [n >= 128]. *)
Lemma float_of_int_lower n :
  128 <= n < 2 ^ 63 -> at_least_pow2 7 (Prim2SF (float_of_int n)).
Proof.
  intros Hn. unfold float_of_int, at_least_pow2.
  rewrite FloatAxioms.of_uint63_spec, Uint63.of_Z_spec.
  rewrite Z.mod_small by (change wB with (2 ^ 63); lia).
  destruct n as [|p|p]; try lia. simpl binary_normalize. unfold binary_round.
  pose proof (digits2_pos_bounds p) as [Bl Bu].
  set (d := Zpos (digits2_pos p)) in *.
  assert (Hd : 8 <= d).
  { destruct (Z_lt_le_dec d 8) as [L|]; auto.
    assert (2 ^ d <= 2 ^ 7) by (apply Z.pow_le_mono_r; lia). lia. }
  rewrite fexp64_eq by lia. unfold shl_align.
  replace (d + 0 - 53 - 0) with (d - 53) by lia.
  destruct (d - 53) as [|k|k] eqn:Ek.
  - destruct (binary_round_aux_lower false (Zpos p) 0 loc_Exact)
      as [E|(m' & e' & E & He & Hm)]; try lia.
    + replace d with 53 in Bl by lia. exact Bl.
    + left; exact E.
    + right. exists m', e'. repeat split; try assumption; lia.
  - destruct (binary_round_aux_lower false (Zpos p) 0 loc_Exact)
      as [E|(m' & e' & E & He & Hm)]; try lia.
    + assert (2 ^ 52 <= 2 ^ (d - 1)) by (apply Z.pow_le_mono_r; lia). lia.
    + left; exact E.
    + right. exists m', e'. repeat split; try assumption; lia.
  - destruct (binary_round_aux_lower false (Zpos (Pos.iter xO p k)) (d + 0 - 53) loc_Exact)
      as [E|(m' & e' & E & He & Hm)]; try lia.
    + rewrite iter_xO_pow.
      assert (2 ^ 52 = 2 ^ (d - 1) * 2 ^ Zpos k).
      { rewrite <- Z.pow_add_r by lia. f_equal. lia. }
      assert (0 < 2 ^ Zpos k) by (apply Z.pow_pos_nonneg; lia). nia.
    + left; exact E.
    + right. exists m', e'. repeat split; try assumption; lia.
Qed.

(** Dividing a value of at least 128 by [100.0] gives at least 1. *)
Lemma div_100_lower x :
  at_least_pow2 7 x -> at_least_pow2 0 (SF64div x (Prim2SF 100)).
Proof.
  replace (Prim2SF 100) with (S754_finite false 7036874417766400 (-46)) by reflexivity.
  unfold at_least_pow2.
  intros [->|(m & e & -> & He & Hm)]; [left; reflexivity|].
  unfold SF64div, SFdiv, SFdiv_core_binary.
  assert (Hd : Zdigits2 (Zpos m) = 53) by (apply digits2_pos_unique; exact Hm).
  rewrite Hd. change (Zdigits2 7036874417766400) with 53.
  rewrite fexp64_eq by lia.
  replace (Z.min (53 + e - (53 + -46) - 53) (e - -46)) with (e - 7) by lia.
  replace (e - -46 - (e - 7)) with 53 by lia.
  rewrite Z.shiftl_mul_pow2 by lia.
  pose proof (Z_div_mod (Zpos m * 2 ^ 53) 7036874417766400 eq_refl) as Hdm.
  destruct (Z.div_eucl (Zpos m * 2 ^ 53) 7036874417766400) as [q r].
  simpl xorb.
  destruct (binary_round_aux_lower false q (e - 7) (new_location 7036874417766400 r))
    as [E|(m' & e' & E & He' & Hm')]; try lia.
  - left; exact E.
  - right. exists m', e'. repeat split; try assumption; lia.
Qed.

Lemma compare_cont_not_Lt m c : Zpos c <= Zpos m -> Pos.compare_cont Eq m c <> Lt.
Proof.
  intros H E. change (Pos.compare m c = Lt) in E.
  apply Pos.compare_lt_iff in E. apply Pos2Z.pos_lt_pos in E. lia.
Qed.

Lemma at_least_one_not_below x :
  at_least_pow2 0 x -> SFltb x (Prim2SF 1) = false.
Proof.
  replace (Prim2SF 1) with (S754_finite false 4503599627370496 (-52)) by reflexivity.
  intros [->|(m & e & -> & He & Hm)]; [reflexivity|].
  assert (Hc : Pos.compare_cont Eq m 4503599627370496 <> Lt).
  { apply compare_cont_not_Lt. change (Zpos 4503599627370496) with (2 ^ 52). lia. }
  unfold SFltb, SFcompare.
  destruct (Z.compare_spec e (-52)) as [E|L|G]; [ | lia | reflexivity ].
  destruct (Pos.compare_cont Eq m 4503599627370496); congruence.
Qed.

(** [n / 100.0 >= 1.0] in binary64 for every size from 128 on. *)
Lemma ratio_saturates_from_128 n :
  128 <= n < 2 ^ 63 -> (float_of_int n / 100 <? 1)%float = false.
Proof.
  intros Hn. rewrite FloatAxioms.ltb_spec, FloatAxioms.div_spec.
  apply at_least_one_not_below, div_100_lower, float_of_int_lower, Hn.
Qed.

End PyFloatFacts.

(** ** Clamping and the confidence ratio *)

Module ScoreFacts.

Import PyFloatFacts.

Lemma leb_not_ltb_eqb_sym x y :
  (x <=? y)%float = true -> (x <? y)%float = false -> (x =? y)%float = true.
Proof.
  rewrite FloatAxioms.leb_spec, FloatAxioms.ltb_spec, FloatAxioms.eqb_spec.
  unfold SFleb, SFltb, SFeqb.
  destruct (SFcompare (Prim2SF x) (Prim2SF y)) as [[]|]; congruence.
Qed.

(** [max(0.0, min(1.0, x))] lies in [[0, 1]], whatever [x] is (also for an
    infinity or a NaN). *)
Lemma clamp_in_range x :
  fle 0 (py_max 0 (py_min 1 x)) /\ fle (py_max 0 (py_min 1 x)) 1.
Proof.
  unfold fle, py_max, py_min.
  destruct (x <? 1)%float eqn:E1; [destruct (0 <? x)%float eqn:E2|].
  - split; apply ltb_leb; assumption.
  - split; reflexivity.
  - split; reflexivity.
Qed.

Lemma clamp_above x : (1 <? x)%float = true -> py_max 0 (py_min 1 x) = 1%float.
Proof.
  intros H. unfold py_max, py_min. rewrite (ltb_asym _ _ H). reflexivity.
Qed.

Lemma clamp_below x : (x <? 0)%float = true -> py_max 0 (py_min 1 x) = 0%float.
Proof.
  intros H. unfold py_max, py_min.
  rewrite (ltb_zero_one _ H), (ltb_asym _ _ H). reflexivity.
Qed.

Lemma clamp_inside x :
  (0 <=? x)%float = true -> (x <=? 1)%float = true ->
  (py_max 0 (py_min 1 x) =? x)%float = true.
Proof.
  intros H0 H1. unfold py_max, py_min.
  destruct (x <? 1)%float eqn:E1; [destruct (0 <? x)%float eqn:E2|].
  - apply (ltb_eqb_refl _ _ E1).
  - apply leb_not_ltb_eqb_sym; assumption.
  - change (if (0 <? 1)%float then 1%float else 0%float) with 1%float.
    apply leb_not_ltb_eqb; assumption.
Qed.

Lemma forallb_seq_Z (P : Z -> bool) (N : nat) :
  forallb (fun k => P (Z.of_nat k)) (seq 0 N) = true ->
  forall n, (0 <= n < Z.of_nat N)%Z -> P n = true.
Proof.
  intros H n Hn. rewrite forallb_forall in H.
  rewrite <- (Z2Nat.id n) by lia. apply H. apply in_seq. lia.
Qed.

Lemma ratio_below_128 :
  forallb (fun k => Bool.eqb (ratio (Z.of_nat k) <? 1)%float (Z.of_nat k <? 100)%Z)
          (seq 0 128) = true.
Proof. vm_compute. reflexivity. Qed.

(** The ratio is below [1.0] exactly for sizes below 100. *)
Lemma ratio_below_one n :
  (0 <= n < 2 ^ 63)%Z -> (ratio n <? 1)%float = (n <? 100)%Z.
Proof.
  intros Hn. destruct (Z_lt_le_dec n 128) as [L|G].
  - apply eqb_prop.
    apply (forallb_seq_Z (fun n => Bool.eqb (ratio n <? 1)%float (n <? 100)%Z) 128
                         ratio_below_128).
    lia.
  - unfold ratio. rewrite ratio_saturates_from_128 by lia.
    symmetry. apply Z.ltb_ge. lia.
Qed.

Lemma confidence_at_saturated n :
  (100 <= n < 2 ^ 63)%Z -> confidence_at n = 1%float.
Proof.
  intros Hn. unfold confidence_at, py_min.
  rewrite ratio_below_one by lia.
  destruct (n =? 0)%Z eqn:E; [apply Z.eqb_eq in E; lia|].
  destruct (n <? 100)%Z eqn:E'; [apply Z.ltb_lt in E'; lia|reflexivity].
Qed.

Lemma confidence_at_le_one n : fle (confidence_at n) 1.
Proof.
  unfold fle, confidence_at, py_min.
  destruct (n =? 0)%Z; [reflexivity|].
  destruct (ratio n <? 1)%float eqn:E; [apply ltb_leb; exact E|reflexivity].
Qed.

Lemma confidence_monotone_below_100 :
  forallb (fun i => forallb (fun j =>
             (confidence_at (Z.of_nat i) <=? confidence_at (Z.of_nat (i + j)))%float)
             (seq 0 100)) (seq 0 100) = true.
Proof. vm_compute. reflexivity. Qed.

(** The confidence never decreases when the sample grows. *)
Lemma confidence_at_monotone n m :
  (0 <= n <= m)%Z -> (m < 2 ^ 63)%Z -> fle (confidence_at n) (confidence_at m).
Proof.
  intros Hnm Hm. destruct (Z_lt_le_dec m 100) as [L|G].
  - pose proof confidence_monotone_below_100 as H.
    rewrite forallb_forall in H.
    specialize (H (Z.to_nat n)). rewrite forallb_forall in H.
    specialize (H ltac:(apply in_seq; lia) (Z.to_nat (m - n)) ltac:(apply in_seq; lia)).
    rewrite <- Z2Nat.inj_add, !Z2Nat.id in H by lia.
    replace (n + (m - n))%Z with m in H by lia. exact H.
  - rewrite (confidence_at_saturated m) by lia. apply confidence_at_le_one.
Qed.

Lemma confidence_at_one_iff n :
  (0 <= n < 2 ^ 63)%Z -> confidence_at n = 1%float <-> (100 <= n)%Z.
Proof.
  intros Hn. split.
  - intros H. destruct (Z_lt_le_dec n 100) as [L|]; [exfalso|assumption].
    unfold confidence_at, py_min in H.
    destruct (n =? 0)%Z.
    + apply (f_equal (fun z => (z <? 1)%float)) in H. vm_compute in H. discriminate.
    + rewrite ratio_below_one in H by lia.
      assert (E : (n <? 100)%Z = true) by (apply Z.ltb_lt; lia).
      rewrite E in H.
      assert (E' : (ratio n <? 1)%float = true) by (rewrite ratio_below_one by lia; exact E).
      rewrite H in E'. vm_compute in E'. discriminate.
  - intros H. apply confidence_at_saturated. lia.
Qed.

Lemma calculate_confidence_list l :
  calculate_confidence (VList l) = confidence_at (Z.of_nat (List.length l)).
Proof.
  unfold calculate_confidence, confidence_at, ratio. destruct l; reflexivity.
Qed.

End ScoreFacts.

(** ** The executor *)

Section ExecutorFacts.

Variable env : environment.

Lemma attempted_app es1 es2 : attempted (es1 ++ es2) = attempted es1 ++ attempted es2.
Proof.
  induction es1 as [|ev es1 IH]; [reflexivity|].
  destruct ev; simpl; rewrite ?IH; reflexivity.
Qed.

(** What the loop body does with one proposal: nothing when it is not
    safe; otherwise the attempt, whose failure ends in an error line and
    whose success ends in an info line. *)
Lemma execute_one_cases x h :
  execute_one env x h =
    if safe_to_apply x then
      match implement_improvement env x h with
      | (Ok _, es) =>
          (Ok tt, es ++ [EvLogInfo ("Automatically implemented improvement: "
                                    ++ component x)])
      | (Raise e, es) =>
          (Ok tt, es ++ [EvLogError ("Failed to implement improvement "
                                     ++ component x ++ ": " ++ exn_str e)])
      end
    else (Ok tt, []).
Proof.
  unfold execute_one. destruct (safe_to_apply x); [|reflexivity].
  unfold try_except, bind, logger_info, logger_error, emit.
  destruct (implement_improvement env x h) as [[[]|e] es]; reflexivity.
Qed.

(** The events of one call of [implement_improvement]. *)
Lemma implement_improvement_cases x h :
  implement_improvement env x h =
    match implementer_for (optimization_type x) with
    | Some i =>
        match run_implementer env i (h ++ [EvAttempt x]) x with
        | Ok _ => (run_record_improvement env (h ++ [EvAttempt x; EvImplement i x]) x,
                   [EvAttempt x; EvImplement i x; EvRecord x])
        | Raise e => (Raise e, [EvAttempt x; EvImplement i x])
        end
    | None => (run_record_improvement env (h ++ [EvAttempt x]) x,
               [EvAttempt x; EvRecord x])
    end.
Proof.
  unfold implement_improvement, bind, emit, call, ret.
  destruct (implementer_for (optimization_type x)) as [i|]; simpl.
  - destruct (run_implementer env i (h ++ [EvAttempt x]) x) as [[]|e]; simpl.
    + rewrite <- app_assoc. reflexivity.
    + reflexivity.
  - rewrite app_nil_r. reflexivity.
Qed.

Lemma execute_one_ok x h : outcome_of (execute_one env x) h = Ok tt.
Proof.
  unfold outcome_of. rewrite execute_one_cases.
  destruct (safe_to_apply x); [|reflexivity].
  destruct (implement_improvement env x h) as [[[]|e] es]; reflexivity.
Qed.

Lemma attempted_execute_one x h :
  attempted (events_of (execute_one env x) h) = if safe_to_apply x then [x] else [].
Proof.
  unfold events_of. rewrite execute_one_cases.
  destruct (safe_to_apply x); [|reflexivity].
  rewrite implement_improvement_cases.
  destruct (implementer_for (optimization_type x)) as [i|].
  - destruct (run_implementer env i (h ++ [EvAttempt x]) x) as [[]|e];
      [destruct (run_record_improvement env _ x) as [[]|e]|]; reflexivity.
  - destruct (run_record_improvement env _ x) as [[]|e]; reflexivity.
Qed.

(** The executor runs the body on each proposal in turn, whatever
    happened to the earlier ones. *)
Lemma execute_safe_improvements_cons x l h :
  execute_safe_improvements env (x :: l) h =
    (outcome_of (execute_safe_improvements env l) (h ++ events_of (execute_one env x) h),
     events_of (execute_one env x) h
       ++ events_of (execute_safe_improvements env l)
                    (h ++ events_of (execute_one env x) h)).
Proof.
  unfold execute_safe_improvements at 1. simpl for_each. unfold bind.
  pose proof (execute_one_ok x h) as Hok. unfold outcome_of in Hok.
  unfold events_of, outcome_of.
  destruct (execute_one env x h) as [r es]; simpl in *. subst r.
  fold (execute_safe_improvements env l).
  destruct (execute_safe_improvements env l (h ++ es)); reflexivity.
Qed.

Lemma events_execute_cons x l h :
  events_of (execute_safe_improvements env (x :: l)) h =
    events_of (execute_one env x) h
      ++ events_of (execute_safe_improvements env l)
                   (h ++ events_of (execute_one env x) h).
Proof.
  unfold events_of at 1. rewrite execute_safe_improvements_cons. reflexivity.
Qed.

Lemma execute_safe_improvements_ok l :
  forall h, outcome_of (execute_safe_improvements env l) h = Ok tt.
Proof.
  induction l as [|x l IH]; intros h; [reflexivity|].
  unfold outcome_of at 1. rewrite execute_safe_improvements_cons. apply IH.
Qed.

Lemma execute_safe_improvements_app l1 l2 :
  forall h,
    events_of (execute_safe_improvements env (l1 ++ l2)) h =
      events_of (execute_safe_improvements env l1) h
        ++ events_of (execute_safe_improvements env l2)
                     (h ++ events_of (execute_safe_improvements env l1) h).
Proof.
  induction l1 as [|x l1 IH]; intros h.
  - simpl. rewrite app_nil_r. reflexivity.
  - simpl app. rewrite !events_execute_cons, IH, <- !app_assoc. reflexivity.
Qed.

Lemma attempted_execute_safe_improvements l :
  forall h,
    attempted (events_of (execute_safe_improvements env l) h) = filter safe_to_apply l.
Proof.
  induction l as [|x l IH]; intros h; [reflexivity|].
  rewrite events_execute_cons, attempted_app, attempted_execute_one, IH. simpl.
  destruct (safe_to_apply x); reflexivity.
Qed.

(** Only the dispatch of [implement_improvement] reaches an implementer. *)
Lemma implementers_of_execute_one x h i y :
  In (EvImplement i y) (events_of (execute_one env x) h) ->
  y = x /\ implementer_for (optimization_type x) = Some i.
Proof.
  unfold events_of. rewrite execute_one_cases.
  destruct (safe_to_apply x); [|intros []].
  rewrite implement_improvement_cases.
  destruct (implementer_for (optimization_type x)) as [j|].
  - destruct (run_implementer env j (h ++ [EvAttempt x]) x) as [[]|e];
      [destruct (run_record_improvement env _ x) as [[]|e]|];
      simpl; intros H; repeat (destruct H as [H|H]; try discriminate H);
      try contradiction; inversion H; subst; split; reflexivity.
  - destruct (run_record_improvement env _ x) as [[]|e];
      simpl; intros H; repeat (destruct H as [H|H]; try discriminate H);
      contradiction.
Qed.

Lemma implementers_of_execute l :
  forall h i y,
    In (EvImplement i y) (events_of (execute_safe_improvements env l) h) ->
    In y l /\ implementer_for (optimization_type y) = Some i.
Proof.
  induction l as [|x l IH]; intros h i y; [intros []|].
  rewrite events_execute_cons.
  intros H. apply in_app_or in H. destruct H as [H|H].
  - apply implementers_of_execute_one in H. destruct H as [-> H].
    split; [left; reflexivity|exact H].
  - apply IH in H. destruct H as [H1 H2]. split; [right; exact H1|exact H2].
Qed.

End ExecutorFacts.

(** ** Eligibility and isolation of the executor *)

Lemma safe_to_apply_iff x :
  safe_to_apply x = true <->
  risk_level x = "low"%string /\ implementation_effort x = "low"%string /\
  (expected_impact x = "medium"%string \/ expected_impact x = "high"%string).
Proof.
  unfold safe_to_apply. simpl existsb.
  rewrite !andb_true_iff, !orb_true_iff, !String.eqb_eq.
  intuition congruence.
Qed.

(** C1. A proposal is handed to [implement_improvement] by
    [execute_safe_improvements] if and only if it is in the list with risk
    level low, implementation effort low and expected impact medium or high;
    the attempts are the eligible proposals in list order, and a proposal
    with risk low, effort low and impact low is never attempted. *)
Theorem autonomous_application_iff_eligible env improvements h x :
  (In x (attempted (events_of (execute_safe_improvements env improvements) h)) <->
   In x improvements /\
   risk_level x = "low"%string /\ implementation_effort x = "low"%string /\
   (expected_impact x = "medium"%string \/ expected_impact x = "high"%string))
  /\ attempted (events_of (execute_safe_improvements env improvements) h)
     = filter safe_to_apply improvements
  /\ (risk_level x = "low"%string -> implementation_effort x = "low"%string ->
      expected_impact x = "low"%string ->
      ~ In x (attempted (events_of (execute_safe_improvements env improvements) h))).
Proof.
  rewrite attempted_execute_safe_improvements, filter_In, safe_to_apply_iff.
  split; [reflexivity|]. split; [reflexivity|].
  intros _ _ Hlow [_ [_ [_ [H|H]]]]; rewrite Hlow in H; discriminate H.
Qed.

Lemma autonomous_application_witness :
  attempted (events_of (execute_safe_improvements quiet_env
                          [cache_tuning; log_trim; shard_split; pool_resize]) [])
    = [cache_tuning; pool_resize]
  /\ ~ In log_trim
       (attempted (events_of (execute_safe_improvements quiet_env
                                [cache_tuning; log_trim; shard_split; pool_resize]) [])).
Proof.
  destruct (autonomous_application_iff_eligible quiet_env
              [cache_tuning; log_trim; shard_split; pool_resize] [] log_trim)
    as (_ & Hall & Hlow).
  split; [rewrite Hall; reflexivity|].
  apply Hlow; reflexivity.
Defined.

(** C5. In one call of [execute_safe_improvements], when applying an
    eligible proposal raises, the exception is caught and logged with the
    component, the call still returns normally, and the proposals after it
    are tested and attempted exactly as the eligibility test says. *)
Theorem application_failure_is_isolated env h before x after e :
  safe_to_apply x = true ->
  outcome_of (implement_improvement env x)
             (h ++ events_of (execute_safe_improvements env before) h) = Raise e ->
  let es1 := events_of (execute_safe_improvements env before) h in
  let esx := events_of (implement_improvement env x) (h ++ es1) in
  let line := EvLogError ("Failed to implement improvement " ++ component x
                          ++ ": " ++ exn_str e) in
  let es2 := events_of (execute_safe_improvements env after)
                       (h ++ es1 ++ esx ++ [line]) in
  execute_safe_improvements env (before ++ x :: after) h
    = (Ok tt, es1 ++ esx ++ [line] ++ es2)
  /\ attempted es2 = filter safe_to_apply after.
Proof.
  intros Hsafe Hraise es1 esx line es2.
  split; [|apply attempted_execute_safe_improvements].
  pose proof (execute_safe_improvements_ok env (before ++ x :: after) h) as Hok.
  pose proof (execute_safe_improvements_app env before (x :: after) h) as Hev.
  rewrite events_execute_cons in Hev. fold es1 in Hev.
  assert (Hx : events_of (execute_one env x) (h ++ es1) = esx ++ [line]).
  { unfold events_of at 1. rewrite execute_one_cases, Hsafe.
    unfold outcome_of in Hraise. fold es1 in Hraise. unfold esx, events_of.
    destruct (implement_improvement env x (h ++ es1)) as [r es]; simpl in *.
    subst r. reflexivity. }
  rewrite Hx in Hev. rewrite <- !app_assoc in Hev.
  unfold outcome_of in Hok. unfold events_of at 1 in Hev.
  destruct (execute_safe_improvements env (before ++ x :: after) h) as [r es];
    simpl in *. subst r es.
  unfold es2. rewrite <- ?app_assoc. reflexivity.
Qed.

Lemma application_failure_witness :
  execute_safe_improvements (failing_env "db-pool")
    ([cache_tuning] ++ pool_resize :: [retry_policy]) []
  = (Ok tt,
     [EvAttempt cache_tuning; EvImplement implement_performance_improvement cache_tuning;
      EvRecord cache_tuning;
      EvLogInfo "Automatically implemented improvement: cache"]
     ++ [EvAttempt pool_resize; EvImplement implement_efficiency_improvement pool_resize]
     ++ [EvLogError "Failed to implement improvement db-pool: connection refused"]
     ++ [EvAttempt retry_policy; EvImplement implement_reliability_improvement retry_policy;
         EvRecord retry_policy;
         EvLogInfo "Automatically implemented improvement: retry"])
  /\ attempted
       [EvAttempt retry_policy; EvImplement implement_reliability_improvement retry_policy;
        EvRecord retry_policy;
        EvLogInfo "Automatically implemented improvement: retry"]
     = filter safe_to_apply [retry_policy].
Proof.
  exact (application_failure_is_isolated (failing_env "db-pool") []
           [cache_tuning] pool_resize [retry_policy] connection_refused
           eq_refl eq_refl).
Defined.

(** C8 (as the code has it). For a proposal whose category is accuracy or
    cost the executor never invokes a category-specific implementer, even
    when the proposal passes the eligibility test.  The executor has no
    routing to manual review: such a proposal, when eligible, is still
    handed to [implement_improvement]. *)
Theorem accuracy_and_cost_reach_no_implementer env improvements h x i :
  optimization_type x = ACCURACY \/ optimization_type x = COST ->
  ~ In (EvImplement i x) (events_of (execute_safe_improvements env improvements) h)
  /\ (In x improvements -> safe_to_apply x = true ->
      In x (attempted (events_of (execute_safe_improvements env improvements) h))).
Proof.
  intros Hcat. split.
  - intros H. apply implementers_of_execute in H. destruct H as [_ H].
    destruct Hcat as [E|E]; rewrite E in H; discriminate H.
  - intros Hin Hsafe. rewrite attempted_execute_safe_improvements.
    apply filter_In. split; assumption.
Qed.

Lemma accuracy_and_cost_witness :
  ~ In (EvImplement implement_performance_improvement model_refit)
       (events_of (execute_safe_improvements quiet_env [cache_tuning; model_refit]) [])
  /\ In model_refit
        (attempted (events_of (execute_safe_improvements quiet_env
                                 [cache_tuning; model_refit]) [])).
Proof.
  destruct (accuracy_and_cost_reach_no_implementer quiet_env [cache_tuning; model_refit]
              [] model_refit implement_performance_improvement (or_introl eq_refl))
    as [Hno Hatt].
  split; [exact Hno|].
  apply Hatt; [right; left; reflexivity|reflexivity].
Defined.

(** C8 as stated fails: an eligible accuracy proposal is not left aside.
    The executor passes it to [implement_improvement], which records it
    through [record_improvement], and logs it as automatically implemented. *)
Lemma eligible_accuracy_proposal_is_recorded_as_applied :
  optimization_type model_refit = ACCURACY
  /\ safe_to_apply model_refit = true
  /\ events_of (execute_safe_improvements quiet_env [model_refit]) []
     = [EvAttempt model_refit; EvRecord model_refit;
        EvLogInfo "Automatically implemented improvement: model"].
Proof. repeat split. Qed.

(** C9 (as the code has it). An attempted application is recorded through
    [record_improvement] when the category-specific implementer returns
    normally, and when the category has none; when the implementer raises,
    [record_improvement] is skipped and the attempt leaves only the error
    line of the log. *)
Theorem completed_application_is_recorded env h before x after :
  safe_to_apply x = true ->
  let es1 := events_of (execute_safe_improvements env before) h in
  let esx := events_of (execute_one env x) (h ++ es1) in
  (exists es2,
      events_of (execute_safe_improvements env (before ++ x :: after)) h
      = es1 ++ esx ++ es2)
  /\ match implementer_for (optimization_type x) with
     | Some i =>
         match run_implementer env i ((h ++ es1) ++ [EvAttempt x]) x with
         | Ok _ => In (EvRecord x) esx
         | Raise e =>
             esx = [EvAttempt x; EvImplement i x;
                    EvLogError ("Failed to implement improvement " ++ component x
                                ++ ": " ++ exn_str e)]
         end
     | None => In (EvRecord x) esx
     end.
Proof.
  intros Hsafe es1 esx. split.
  - eexists. rewrite execute_safe_improvements_app, events_execute_cons. reflexivity.
  - unfold esx, events_of. rewrite execute_one_cases, Hsafe, implement_improvement_cases.
    destruct (implementer_for (optimization_type x)) as [i|].
    + destruct (run_implementer env i ((h ++ es1) ++ [EvAttempt x]) x) as [[]|e].
      * destruct (run_record_improvement env _ x) as [[]|e]; simpl; tauto.
      * reflexivity.
    + destruct (run_record_improvement env _ x) as [[]|e]; simpl; tauto.
Qed.

Lemma completed_application_witness :
  (exists es2,
      events_of (execute_safe_improvements quiet_env
                   ([cache_tuning] ++ pool_resize :: [retry_policy])) []
      = events_of (execute_safe_improvements quiet_env [cache_tuning]) []
        ++ events_of (execute_one quiet_env pool_resize)
             ([] ++ events_of (execute_safe_improvements quiet_env [cache_tuning]) [])
        ++ es2)
  /\ In (EvRecord pool_resize)
        (events_of (execute_one quiet_env pool_resize)
           ([] ++ events_of (execute_safe_improvements quiet_env [cache_tuning]) [])).
Proof.
  exact (completed_application_is_recorded quiet_env [] [cache_tuning] pool_resize
           [retry_policy] eq_refl).
Defined.

(** C9 as stated fails: an eligible proposal whose application raises is
    attempted, and no record of the attempt is made. *)
Lemma failed_application_is_not_recorded :
  safe_to_apply pool_resize = true
  /\ events_of (execute_safe_improvements (failing_env "db-pool") [pool_resize]) []
     = [EvAttempt pool_resize;
        EvImplement implement_efficiency_improvement pool_resize;
        EvLogError "Failed to implement improvement db-pool: connection refused"]
  /\ ~ In (EvRecord pool_resize)
         (events_of (execute_safe_improvements (failing_env "db-pool") [pool_resize]) []).
Proof.
  split; [reflexivity|]. split; [reflexivity|].
  simpl. intros [H|[H|[H|[]]]]; discriminate H.
Qed.

(** ** Confidence of a payload *)

Lemma calculate_confidence_truthy data :
  truthy data = true ->
  calculate_confidence data = confidence_at (sample_size data)
  /\ (1 <= sample_size data)%Z.
Proof.
  intros Ht. unfold calculate_confidence. rewrite Ht. simpl negb. cbv iota.
  unfold confidence_at, ratio.
  assert (Hs : (1 <= sample_size data)%Z).
  { destruct data as [| | | | |l|]; simpl; try lia.
    destruct l; [discriminate Ht|]. simpl List.length. lia. }
  split; [|exact Hs].
  destruct (sample_size data =? 0)%Z eqn:E; [apply Z.eqb_eq in E; lia|reflexivity].
Qed.

(** C3 (as the code has it). For a truthy payload [calculate_confidence]
    returns [min(1.0, sample_size / 100.0)], where the sample size is the
    length of a list and 1 for any other payload; for a falsy payload (the
    empty list, [None], an empty container or string, a zero) it returns
    exactly [0.0]; on lists it never decreases when the list grows; and it
    equals [1.0] exactly when the payload is truthy with a sample size of at
    least 100.  Sizes are those [len] can return (below [2^63]). *)
Theorem calculate_confidence_by_sample_size data l1 l2 :
  (sample_size data < 2 ^ 63)%Z ->
  (List.length l1 <= List.length l2)%nat ->
  (Z.of_nat (List.length l2) < 2 ^ 63)%Z ->
  (truthy data = true ->
   calculate_confidence data
   = py_min 1 (float_of_int (sample_size data) / 100)%float)
  /\ (truthy data = false -> calculate_confidence data = 0%float)
  /\ calculate_confidence (VList []) = 0%float
  /\ fle (calculate_confidence (VList l1)) (calculate_confidence (VList l2))
  /\ (calculate_confidence data = 1%float <->
      truthy data = true /\ (100 <= sample_size data)%Z).
Proof.
  intros Hd Hl H2. repeat split.
  - intros Ht. unfold calculate_confidence. rewrite Ht. reflexivity.
  - intros Hf. unfold calculate_confidence. rewrite Hf. reflexivity.
  - rewrite !ScoreFacts.calculate_confidence_list.
    apply ScoreFacts.confidence_at_monotone; lia.
  - destruct (truthy data) eqn:Ht; [reflexivity|].
    unfold calculate_confidence in H. rewrite Ht in H. simpl in H.
    apply (f_equal (fun z => (z <? 1)%float)) in H. vm_compute in H. discriminate H.
  - destruct (truthy data) eqn:Ht.
    + destruct (calculate_confidence_truthy data Ht) as [E Hs]. rewrite E in H.
      apply ScoreFacts.confidence_at_one_iff in H; [exact H|lia].
    + unfold calculate_confidence in H. rewrite Ht in H. simpl in H.
      apply (f_equal (fun z => (z <? 1)%float)) in H. vm_compute in H. discriminate H.
  - intros [Ht Hs]. destruct (calculate_confidence_truthy data Ht) as [E _].
    rewrite E. apply ScoreFacts.confidence_at_one_iff; lia.
Qed.

Lemma calculate_confidence_witness :
  fle (calculate_confidence (VList [VInt 1; VInt 2]))
      (calculate_confidence (VList (repeat VNone 150)))
  /\ (calculate_confidence (VList (repeat VNone 150)) = 1%float <->
      truthy (VList (repeat VNone 150)) = true
      /\ (100 <= sample_size (VList (repeat VNone 150)))%Z).
Proof.
  destruct (calculate_confidence_by_sample_size
              (VList (repeat VNone 150)) [VInt 1; VInt 2] (repeat VNone 150))
    as (_ & _ & _ & Hmono & Hone).
  - vm_compute. reflexivity.
  - rewrite repeat_length. simpl. lia.
  - vm_compute. reflexivity.
  - split; assumption.
Defined.

(** C3 as stated fails: the zero of a count is a scalar payload, of sample
    size 1, and its confidence is [0.0], not [min(1.0, 1 / 100.0)]. *)
Lemma zero_payload_has_no_confidence :
  sample_size (VInt 0) = 1%Z
  /\ calculate_confidence (VInt 0) = 0%float
  /\ calculate_confidence (VInt 0)
     <> py_min 1 (float_of_int (sample_size (VInt 0)) / 100)%float.
Proof.
  split; [reflexivity|]. split; [reflexivity|].
  intros H. apply (f_equal (fun z => (z =? 0)%float)) in H.
  vm_compute in H. discriminate H.
Qed.

(** ** Ingestion *)

Lemma map_m_ok {A B : Type} (f : A -> M B) l :
  forall h outs es,
    map_m f l h = (Ok outs, es) ->
    Forall2 (fun a b => exists h' es', f a h' = (Ok b, es')) l outs.
Proof.
  induction l as [|a l IH]; intros h outs es; simpl.
  - unfold ret. intros [= <- _]. constructor.
  - unfold bind at 1. destruct (f a h) as [[b|e] es1] eqn:Ef; [|discriminate].
    unfold bind at 1.
    destruct (map_m f l (h ++ es1)) as [[bs|e] es2] eqn:Em; [|discriminate].
    unfold ret. intros [= <- _]. constructor.
    + exists h, es1. exact Ef.
    + apply (IH _ _ _ Em).
Qed.

(** C6. Every outcome that [collect_learning_outcomes] builds from a row
    stores the raw [impact_score] clamped into [[0, 1]]: the stored score
    lies between 0 and 1, is [1.0] for a raw value above 1, [0.0] for a raw
    value below 0, and equals an in-range raw value. *)
Theorem success_score_is_clamped env h outcomes es :
  collect_learning_outcomes env h = (Ok outcomes, es) ->
  exists rows,
    db_learning_outcomes env h = Ok rows /\
    Forall2 (fun row o =>
               let raw := row_impact_score row in
               success_score o = py_max 0 (py_min 1 raw)
               /\ fle 0 (success_score o) /\ fle (success_score o) 1
               /\ ((1 <? raw)%float = true -> success_score o = 1%float)
               /\ ((raw <? 0)%float = true -> success_score o = 0%float)
               /\ ((0 <=? raw)%float = true -> (raw <=? 1)%float = true ->
                   (success_score o =? raw)%float = true))
            rows outcomes.
Proof.
  unfold collect_learning_outcomes, bind at 1, call.
  destruct (db_learning_outcomes env h) as [rows|e]; [|discriminate].
  destruct (map_m _ rows _) as [r es'] eqn:Em. intros [= -> _].
  exists rows. split; [reflexivity|].
  apply map_m_ok in Em.
  induction Em as [|row o rows outs (h' & es1 & Hrow) _ IH]; constructor; [|exact IH].
  assert (E : success_score o = py_max 0 (py_min 1 (row_impact_score row))).
  { revert Hrow. unfold bind, ret.
    destruct (get_resource_metrics env (row_project_id row) h') as [[rm|?] ?];
      [|discriminate].
    destruct (get_quality_metrics env (row_project_id row) _) as [[qm|?] ?];
      [|discriminate].
    intros [= <- _]. reflexivity. }
  cbv zeta. rewrite E.
  pose proof (ScoreFacts.clamp_in_range (row_impact_score row)) as [H0 H1].
  repeat split; try assumption.
  - apply ScoreFacts.clamp_above.
  - apply ScoreFacts.clamp_below.
  - apply ScoreFacts.clamp_inside.
Qed.

Lemma success_score_witness :
  map success_score sample_outcomes = [1; 0; 0.5]%float
  /\ exists rows,
      db_learning_outcomes (store_env sample_rows) [] = Ok rows /\
      Forall2 (fun row o =>
                 let raw := row_impact_score row in
                 success_score o = py_max 0 (py_min 1 raw)
                 /\ fle 0 (success_score o) /\ fle (success_score o) 1
                 /\ ((1 <? raw)%float = true -> success_score o = 1%float)
                 /\ ((raw <? 0)%float = true -> success_score o = 0%float)
                 /\ ((0 <=? raw)%float = true -> (raw <=? 1)%float = true ->
                     (success_score o =? raw)%float = true))
              rows sample_outcomes.
Proof.
  split; [vm_compute; reflexivity|].
  eapply success_score_is_clamped. vm_compute. reflexivity.
Defined.

(** ** Ranking *)

Section StableSortFacts.
Context {A : Type}.
Variable below : A -> A -> bool.
Hypothesis below_asym : forall x y, below x y = true -> below y x = false.
Hypothesis below_negtrans :
  forall x y z, below x y = false -> below y z = false -> below x z = false.

Lemma insert_desc_perm x l : Permutation (x :: l) (insert_desc below x l).
Proof.
  induction l as [|y l IH]; simpl; [reflexivity|].
  destruct (below x y); [|reflexivity].
  rewrite perm_swap. apply perm_skip. exact IH.
Qed.

Lemma sort_desc_perm l : Permutation l (sort_desc below l).
Proof.
  induction l as [|x l IH]; simpl; [constructor|].
  rewrite <- insert_desc_perm. apply perm_skip. exact IH.
Qed.

Lemma insert_desc_sorted x l :
  StronglySorted (fun a b => below a b = false) l ->
  StronglySorted (fun a b => below a b = false) (insert_desc below x l).
Proof.
  induction l as [|y l IH]; intros Hs; simpl.
  - constructor; constructor.
  - apply StronglySorted_inv in Hs. destruct Hs as [Hs Hy].
    destruct (below x y) eqn:E.
    + constructor; [apply IH; exact Hs|].
      apply (Permutation_Forall (insert_desc_perm x l)).
      constructor; [apply below_asym; exact E|exact Hy].
    + constructor; [constructor; assumption|].
      constructor; [exact E|].
      rewrite Forall_forall in *. intros z Hz.
      apply (below_negtrans x y z E). apply Hy. exact Hz.
Qed.

Lemma sort_desc_sorted l :
  StronglySorted (fun a b => below a b = false) (sort_desc below l).
Proof.
  induction l as [|x l IH]; simpl; [constructor|].
  apply insert_desc_sorted. exact IH.
Qed.

Lemma filter_insert_desc k x l :
  filter (tie below k) (insert_desc below x l) = filter (tie below k) (x :: l).
Proof.
  induction l as [|y l IH]; [reflexivity|].
  simpl insert_desc. destruct (below x y) eqn:E; [|reflexivity].
  simpl filter in *. rewrite IH.
  destruct (tie below k x) eqn:Tx; [|reflexivity].
  destruct (tie below k y) eqn:Ty; [exfalso|reflexivity].
  unfold tie in Tx, Ty.
  apply andb_prop in Tx. destruct Tx as [_ Tx]. apply negb_true_iff in Tx.
  apply andb_prop in Ty. destruct Ty as [Ty _]. apply negb_true_iff in Ty.
  rewrite (below_negtrans x k y Tx Ty) in E. discriminate E.
Qed.

(** Elements with equal keys keep their order. *)
Lemma sort_desc_stable k l :
  filter (tie below k) (sort_desc below l) = filter (tie below k) l.
Proof.
  induction l as [|x l IH]; [reflexivity|].
  simpl sort_desc. rewrite filter_insert_desc. simpl. rewrite IH. reflexivity.
Qed.
End StableSortFacts.

Lemma StronglySorted_after {A : Type} (R : A -> A -> Prop) l1 x l2 :
  StronglySorted R (l1 ++ x :: l2) -> Forall (R x) l2.
Proof.
  induction l1 as [|y l1 IH]; simpl; intros H; apply StronglySorted_inv in H.
  - apply H.
  - apply IH, H.
Qed.

Lemma impact_score_level label : impact_score label = impact_of_level (level_of label).
Proof.
  unfold impact_score, level_of.
  destruct (label =? "low")%string; [reflexivity|].
  destruct (label =? "medium")%string; [reflexivity|].
  destruct (label =? "high")%string; reflexivity.
Qed.

Lemma feasibility_score_level label :
  feasibility_score label = feasibility_of_level (level_of label).
Proof.
  unfold feasibility_score, level_of.
  destruct (label =? "low")%string; [reflexivity|].
  destruct (label =? "medium")%string; [reflexivity|].
  destruct (label =? "high")%string; reflexivity.
Qed.

Lemma ranking_score_levels x :
  ranking_score x
  = score_of_levels (level_of (expected_impact x)) (level_of (implementation_effort x)).
Proof.
  unfold ranking_score, score_of_levels.
  rewrite impact_score_level, feasibility_score_level. reflexivity.
Qed.

(** The order of the scores is the order of their ranks. *)
Lemma score_order_is_rank_order a b c d :
  (score_of_levels a b <? score_of_levels c d)%float
  = (rank_of_levels a b <? rank_of_levels c d)%nat
  /\ (score_of_levels a b <=? score_of_levels c d)%float
     = (rank_of_levels a b <=? rank_of_levels c d)%nat
  /\ (score_of_levels a b =? score_of_levels c d)%float
     = (rank_of_levels a b =? rank_of_levels c d)%nat.
Proof. destruct a, b, c, d; vm_compute; repeat split. Qed.

Lemma ranks_below_rank x y : ranks_below x y = (rank x <? rank y)%nat.
Proof.
  unfold ranks_below, rank. rewrite !ranking_score_levels.
  apply score_order_is_rank_order.
Qed.

Lemma ranked_no_lower_rank x y : ranked_no_lower x y <-> (rank y <= rank x)%nat.
Proof.
  unfold ranked_no_lower, fle, rank. rewrite !ranking_score_levels.
  destruct (score_order_is_rank_order
              (level_of (expected_impact y)) (level_of (implementation_effort y))
              (level_of (expected_impact x)) (level_of (implementation_effort x)))
    as (_ & -> & _).
  apply Nat.leb_le.
Qed.

Lemma same_rank_tie k y : same_rank k y = tie ranks_below k y.
Proof.
  unfold same_rank, tie. rewrite !ranks_below_rank. unfold rank.
  rewrite !ranking_score_levels.
  destruct (score_order_is_rank_order
              (level_of (expected_impact y)) (level_of (implementation_effort y))
              (level_of (expected_impact k)) (level_of (implementation_effort k)))
    as (_ & _ & ->).
  destruct (Nat.eqb_spec (rank_of_levels (level_of (expected_impact y))
                                         (level_of (implementation_effort y)))
                         (rank_of_levels (level_of (expected_impact k))
                                         (level_of (implementation_effort k))))
    as [E|N].
  - rewrite E, Nat.ltb_irrefl. reflexivity.
  - symmetry. apply andb_false_iff.
    apply Nat.lt_gt_cases in N. destruct N as [L|L]; [right|left];
      apply negb_false_iff, Nat.ltb_lt; exact L.
Qed.

Lemma ranks_below_asym x y : ranks_below x y = true -> ranks_below y x = false.
Proof.
  rewrite !ranks_below_rank, Nat.ltb_lt, Nat.ltb_ge. lia.
Qed.

Lemma ranks_below_negtrans x y z :
  ranks_below x y = false -> ranks_below y z = false -> ranks_below x z = false.
Proof.
  rewrite !ranks_below_rank, !Nat.ltb_ge. lia.
Qed.

Lemma level_of_unrecognized label :
  level_of label = Unrecognized <-> ~ In label scale.
Proof.
  unfold level_of, scale. simpl In.
  destruct (String.eqb_spec label "low"); [split; [discriminate|intuition congruence]|].
  destruct (String.eqb_spec label "medium"); [split; [discriminate|intuition congruence]|].
  destruct (String.eqb_spec label "high"); [split; [discriminate|intuition congruence]|].
  split; [|reflexivity]. intuition congruence.
Qed.

Lemma rank_recognized x : recognized x -> (1 <= rank x)%nat.
Proof.
  intros [Hi He]. unfold rank.
  destruct (level_of (expected_impact x)) eqn:Ei;
    try (apply level_of_unrecognized in Ei; contradiction);
    destruct (level_of (implementation_effort x)) eqn:Ee;
    try (apply level_of_unrecognized in Ee; contradiction); simpl; lia.
Qed.

Lemma rank_unrecognized x : ~ recognized x -> rank x = 0%nat.
Proof.
  intros Hn. unfold rank.
  destruct (level_of (expected_impact x)) eqn:Ei;
    destruct (level_of (implementation_effort x)) eqn:Ee; try reflexivity;
    exfalso; apply Hn; split; apply Decidable.not_not;
    try (unfold Decidable.decidable; destruct (in_dec string_dec (expected_impact x) scale); tauto);
    try (unfold Decidable.decidable;
         destruct (in_dec string_dec (implementation_effort x) scale); tauto);
    intros Hc; apply level_of_unrecognized in Hc; congruence.
Qed.

Lemma generate_improvements_sorts env patterns h :
  generate_improvements env patterns h =
    match gather_improvements env patterns h with
    | (Ok gathered, es) => (Ok (sort_desc ranks_below gathered), es)
    | (Raise e, es) => (Raise e, es)
    end.
Proof.
  unfold generate_improvements, bind, ret.
  destruct (gather_improvements env patterns h) as [[g|e] es];
    [rewrite app_nil_r|]; reflexivity.
Qed.

Lemma sort_desc_ranked gathered :
  StronglySorted ranked_no_lower (sort_desc ranks_below gathered).
Proof.
  pose proof (sort_desc_sorted ranks_below ranks_below_asym ranks_below_negtrans
                               gathered) as Hs.
  induction Hs as [|x l Hs IH Hx]; constructor; [exact IH|].
  apply Forall_forall. rewrite Forall_forall in Hx. intros y Hy.
  apply ranked_no_lower_rank. specialize (Hx y Hy).
  rewrite ranks_below_rank in Hx. apply Nat.ltb_ge in Hx. exact Hx.
Qed.

(** What [generate_improvements] returns is sorted by descending score. *)
Lemma generate_improvements_sorted env patterns h improvements es :
  generate_improvements env patterns h = (Ok improvements, es) ->
  StronglySorted ranked_no_lower improvements.
Proof.
  rewrite generate_improvements_sorts.
  destruct (gather_improvements env patterns h) as [[gathered|e] es'];
    [|discriminate].
  intros [= <- _]. apply sort_desc_ranked.
Qed.

(** C4. [generate_improvements] returns the gathered proposals sorted in
    descending order of [impact_score(expected_impact) *
    feasibility_score(implementation_effort)], with the two tables as
    given; proposals of equal score keep the order in which they were
    gathered. *)
Theorem generate_improvements_ranks_stably env patterns h improvements es :
  generate_improvements env patterns h = (Ok improvements, es) ->
  (exists gathered,
      gather_improvements env patterns h = (Ok gathered, es)
      /\ Permutation gathered improvements
      /\ (forall k, filter (same_rank k) improvements = filter (same_rank k) gathered))
  /\ StronglySorted ranked_no_lower improvements
  /\ (impact_score "low", impact_score "medium", impact_score "high")
     = (0.3, 0.6, 1)%float
  /\ (feasibility_score "low", feasibility_score "medium", feasibility_score "high")
     = (1, 0.6, 0.3)%float.
Proof.
  rewrite generate_improvements_sorts.
  destruct (gather_improvements env patterns h) as [[gathered|e] es'];
    [|discriminate].
  intros [= <- <-]. split; [|split; [|split; reflexivity]].
  - exists gathered. split; [reflexivity|]. split; [apply sort_desc_perm|].
    intros k.
    rewrite (filter_ext _ _ (same_rank_tie k)), (filter_ext _ _ (same_rank_tie k)).
    apply sort_desc_stable. apply ranks_below_negtrans.
  - apply sort_desc_ranked.
Qed.

Lemma generate_improvements_witness :
  generate_improvements (finding_env [shard_split; log_trim; cache_tuning; retry_policy])
                        [success_pattern 0.8] []
  = (Ok [cache_tuning; retry_policy; shard_split; log_trim],
     [EvGenerate generate_success_factor_improvements
                 (VList [VStr "pairing"; VStr "small batches"])])
  /\ StronglySorted ranked_no_lower [cache_tuning; retry_policy; shard_split; log_trim].
Proof.
  split; [vm_compute; reflexivity|].
  apply (generate_improvements_ranks_stably
           (finding_env [shard_split; log_trim; cache_tuning; retry_policy])
           [success_pattern 0.8] [] _ _ eq_refl).
Defined.

(** C10. A label outside low, medium and high scores [0.0] in both tables,
    and a proposal carrying such a label has ranking score [0.0].  Sorting
    raises no error over it: whenever the generators have answered,
    [generate_improvements] returns, the proposal is in the returned list,
    and there it comes after every gathered proposal with recognized labels:
    none of them follows it, all of them precede it. *)
Theorem unrecognized_labels_rank_last env patterns h gathered es label u :
  gather_improvements env patterns h = (Ok gathered, es) ->
  In u gathered ->
  ~ recognized u ->
  (~ In label scale -> impact_score label = 0%float /\ feasibility_score label = 0%float)
  /\ (forall v, ~ recognized v -> ranking_score v = 0%float)
  /\ exists improvements,
      generate_improvements env patterns h = (Ok improvements, es)
      /\ Permutation gathered improvements
      /\ In u improvements
      /\ forall before after,
          improvements = before ++ u :: after ->
          Forall (fun r => ~ recognized r) after
          /\ forall r, In r gathered -> recognized r -> In r before.
Proof.
  intros Hg Hin Hu. split; [|split].
  - intros Hl. apply level_of_unrecognized in Hl.
    rewrite impact_score_level, feasibility_score_level, Hl. split; reflexivity.
  - intros v Hv. pose proof (rank_unrecognized v Hv) as Hr.
    rewrite ranking_score_levels. unfold rank in Hr.
    destruct (level_of (expected_impact v)), (level_of (implementation_effort v));
      try discriminate Hr; reflexivity.
  - exists (sort_desc ranks_below gathered).
    pose proof (sort_desc_perm ranks_below gathered) as Hp.
    split; [rewrite generate_improvements_sorts, Hg; reflexivity|].
    split; [exact Hp|].
    split; [apply (Permutation_in _ Hp Hin)|].
    intros before after Hsplit.
    assert (Hafter : Forall (fun r => ~ recognized r) after).
    { pose proof (sort_desc_ranked gathered) as Hs. rewrite Hsplit in Hs.
      apply StronglySorted_after in Hs.
      apply Forall_forall. rewrite Forall_forall in Hs. intros r Hr Hrec.
      specialize (Hs r Hr). apply ranked_no_lower_rank in Hs.
      pose proof (rank_recognized r Hrec). rewrite (rank_unrecognized u Hu) in Hs. lia. }
    split; [exact Hafter|].
    intros r Hr Hrec. apply (Permutation_in _ Hp) in Hr. rewrite Hsplit in Hr.
    apply in_app_or in Hr. destruct Hr as [Hr|[Hr|Hr]].
    + exact Hr.
    + subst r. contradiction.
    + rewrite Forall_forall in Hafter. contradiction (Hafter r Hr Hrec).
Qed.

Lemma unrecognized_labels_witness :
  generate_improvements (finding_env [billing_review; log_trim; vague_redesign; pool_resize])
                        [success_pattern 0.8] []
  = (Ok [pool_resize; log_trim; billing_review; vague_redesign],
     [EvGenerate generate_success_factor_improvements
                 (VList [VStr "pairing"; VStr "small batches"])])
  /\ ranking_score billing_review = 0%float
  /\ Forall (fun r => ~ recognized r) [vague_redesign]
  /\ In pool_resize [pool_resize; log_trim] /\ In log_trim [pool_resize; log_trim].
Proof.
  assert (Hu : ~ recognized billing_review).
  { intros [_ H]. simpl in H. destruct H as [H|[H|[H|[]]]]; discriminate H. }
  destruct (unrecognized_labels_rank_last
              (finding_env [billing_review; log_trim; vague_redesign; pool_resize])
              [success_pattern 0.8] []
              [billing_review; log_trim; vague_redesign; pool_resize]
              [EvGenerate generate_success_factor_improvements
                          (VList [VStr "pairing"; VStr "small batches"])]
              "critical" billing_review eq_refl (or_introl eq_refl) Hu)
    as (_ & Hzero & improvements & Hgen & _ & _ & Hlast).
  assert (E : improvements = [pool_resize; log_trim; billing_review; vague_redesign]).
  { vm_compute in Hgen. injection Hgen as <-. reflexivity. }
  destruct (Hlast [pool_resize; log_trim] [vague_redesign] E) as [Hafter Hbefore].
  split; [rewrite Hgen, E; reflexivity|].
  split; [exact (Hzero billing_review Hu)|].
  split; [exact Hafter|].
  split.
  - apply Hbefore; [right; right; right; left; reflexivity|].
    split; simpl; tauto.
  - apply Hbefore; [right; left; reflexivity|].
    split; simpl; tauto.
Defined.

(** C2 (the code at the failing input). The gate of [generate_improvements]
    compares with the literal [0.7] and never reads the configuration: under
    a configuration whose [confidence_threshold] is [0.9], a pattern of
    confidence [0.8], below that threshold, still yields its proposals. *)
Theorem gate_ignores_configured_threshold :
  dict_get strict_config "confidence_threshold" = Some (VFloat 0.9)
  /\ (pattern_confidence (success_pattern 0.8) <? 0.9)%float = true
  /\ generate_improvements (finding_env [cache_tuning]) [success_pattern 0.8] []
     = (Ok [cache_tuning],
        [EvGenerate generate_success_factor_improvements
                    (VList [VStr "pairing"; VStr "small batches"])]).
Proof. repeat split. Qed.

(** ** The control loop *)

Section EventFacts.
Context {A B : Type}.
Variable P : event -> Prop.

Lemma events_bind (m : M A) (f : A -> M B) h :
  events_of (bind m f) h =
    match m h with
    | (Ok a, es) => es ++ events_of (f a) (h ++ es)
    | (Raise _, es) => es
    end.
Proof.
  unfold events_of, bind. destruct (m h) as [[a|e] es]; [|reflexivity].
  destruct (f a (h ++ es)); reflexivity.
Qed.

Lemma emits_bind (m : M A) (f : A -> M B) :
  emits P m -> (forall a, emits P (f a)) -> emits P (bind m f).
Proof.
  intros Hm Hf h. rewrite events_bind. specialize (Hm h). unfold events_of in Hm.
  destruct (m h) as [[a|e] es]; simpl in Hm; [|exact Hm].
  apply Forall_app. split; [exact Hm|apply Hf].
Qed.

Lemma emits_before_raise_bind (m : M A) (f : A -> M B) :
  emits P m -> (forall a, emits_before_raise P (f a)) ->
  emits_before_raise P (bind m f).
Proof.
  intros Hm Hf h e es. unfold bind. specialize (Hm h). unfold events_of in Hm.
  destruct (m h) as [[a|e'] es1]; simpl in Hm.
  - destruct (f a (h ++ es1)) as [r es2] eqn:Ef. intros [= -> <-].
    apply Forall_app. split; [exact Hm|]. apply (Hf a _ _ _ Ef).
  - intros [= _ <-]. exact Hm.
Qed.

Lemma ends_with_bind ev (m : M A) (f : A -> M B) :
  (forall a, ends_with ev (f a)) -> ends_with ev (bind m f).
Proof.
  intros Hf h b es. unfold bind.
  destruct (m h) as [[a|e'] es1]; [|discriminate].
  destruct (f a (h ++ es1)) as [r es2] eqn:Ef. intros [= -> <-].
  destruct (Hf a _ _ _ Ef) as [es0 ->]. exists (es1 ++ es0).
  rewrite app_assoc. reflexivity.
Qed.
End EventFacts.

Section EmitsFacts.
Variable P : event -> Prop.

Lemma emits_ret {A : Type} (a : A) : emits P (ret a).
Proof. intros h. constructor. Qed.

Lemma emits_call {A : Type} ev (answer : trace -> result A) :
  P ev -> emits P (call ev answer).
Proof. intros H h. constructor; [exact H|constructor]. Qed.

Lemma emits_emit ev : P ev -> emits P (emit ev).
Proof. intros H h. constructor; [exact H|constructor]. Qed.

Lemma emits_for_each {A : Type} (body : A -> M unit) l :
  (forall a, emits P (body a)) -> emits P (for_each body l).
Proof.
  intros Hb. induction l as [|a l IH]; simpl.
  - apply emits_ret.
  - apply emits_bind; [apply Hb|intros _; exact IH].
Qed.

Lemma emits_map_m {A B : Type} (f : A -> M B) l :
  (forall a, emits P (f a)) -> emits P (map_m f l).
Proof.
  intros Hf. induction l as [|a l IH]; simpl.
  - apply emits_ret.
  - apply emits_bind; [apply Hf|]. intros b.
    apply emits_bind; [exact IH|]. intros bs. apply emits_ret.
Qed.

Lemma emits_try_except {A : Type} (body : M A) handler :
  emits P body -> (forall e, emits P (handler e)) -> emits P (try_except body handler).
Proof.
  intros Hb Hh h. specialize (Hb h). unfold events_of, try_except in *.
  destruct (body h) as [[a|e] es]; simpl in *; [exact Hb|].
  specialize (Hh e (h ++ es)). unfold events_of in Hh.
  destruct (handler e (h ++ es)) as [r es']; simpl in *.
  apply Forall_app. split; assumption.
Qed.
End EmitsFacts.

Section LoopFacts.

Variable env : environment.
Variable config : dict.

Ltac no_sleep :=
  repeat first
    [ apply emits_ret
    | apply emits_call; reflexivity
    | apply emits_emit; reflexivity
    | apply emits_bind; [|intro]
    | apply emits_for_each; intro
    | apply emits_map_m; intro ].

Lemma collect_never_sleeps : emits not_a_sleep (collect_learning_outcomes env).
Proof. unfold collect_learning_outcomes, get_resource_metrics, get_quality_metrics. no_sleep. Qed.

Lemma analyze_never_sleeps outcomes : emits not_a_sleep (analyze_patterns env outcomes).
Proof. unfold analyze_patterns, analyze_one. destruct outcomes; no_sleep. Qed.

Lemma gather_never_sleeps patterns : emits not_a_sleep (gather_improvements env patterns).
Proof.
  induction patterns as [|p rest IH]; simpl; [apply emits_ret|].
  destruct (pattern_confidence p <? 0.7)%float; [exact IH|].
  destruct (generator_for (pattern_type p)); [|exact IH].
  apply emits_bind; [apply emits_call; reflexivity|]. intros found.
  apply emits_bind; [exact IH|]. intros more. apply emits_ret.
Qed.

Lemma generate_never_sleeps patterns :
  emits not_a_sleep (generate_improvements env patterns).
Proof.
  unfold generate_improvements.
  apply emits_bind; [apply gather_never_sleeps|intros; apply emits_ret].
Qed.

Lemma execute_never_sleeps improvements :
  emits not_a_sleep (execute_safe_improvements env improvements).
Proof.
  unfold execute_safe_improvements. apply emits_for_each. intros x.
  unfold execute_one. destruct (safe_to_apply x); [|apply emits_ret].
  apply emits_try_except.
  - unfold implement_improvement, logger_info.
    destruct (implementer_for (optimization_type x)); no_sleep.
  - intros e. apply emits_emit. reflexivity.
Qed.

Lemma update_never_sleeps outcomes :
  emits not_a_sleep (update_learning_models env outcomes).
Proof. unfold update_learning_models. destruct outcomes; no_sleep. Qed.

Lemma health_check_never_sleeps : emits not_a_sleep (system_health_check env).
Proof. unfold system_health_check. no_sleep. Qed.

Lemma asyncio_sleep_before_raise delay :
  emits_before_raise not_a_sleep (asyncio_sleep delay).
Proof.
  intros h e es. unfold asyncio_sleep.
  destruct delay as [| |n| | | |]; try destruct (n <? float_overflow_bound)%Z;
    unfold emit, raise; intros [= _ <-]; constructor.
Qed.

Lemma asyncio_sleep_ends delay : ends_with (EvSleep delay) (asyncio_sleep delay).
Proof.
  intros h a es. unfold asyncio_sleep.
  destruct delay as [| |n| | | |]; try destruct (n <? float_overflow_bound)%Z;
    unfold emit, raise; intros [= _ <-]; exists []; reflexivity.
Qed.

(** A cycle that fails has not reached its sleep. *)
Lemma failed_cycle_never_sleeps :
  emits_before_raise not_a_sleep (learning_cycle env config).
Proof.
  unfold learning_cycle.
  apply emits_before_raise_bind; [apply collect_never_sleeps|intros outcomes].
  apply emits_before_raise_bind; [apply analyze_never_sleeps|intros patterns].
  apply emits_before_raise_bind; [apply generate_never_sleeps|intros recs].
  apply emits_before_raise_bind; [apply execute_never_sleeps|intros _].
  apply emits_before_raise_bind; [apply update_never_sleeps|intros _].
  apply emits_before_raise_bind; [apply health_check_never_sleeps|intros _].
  apply asyncio_sleep_before_raise.
Qed.

(** A cycle that completes ends with the configured sleep. *)
Lemma completed_cycle_sleeps :
  ends_with (EvSleep (dict_get_default config "learning_interval" (VInt 300)))
            (learning_cycle env config).
Proof.
  unfold learning_cycle.
  repeat (apply ends_with_bind; intro). apply asyncio_sleep_ends.
Qed.

Lemma cycle_starts_with_collection h :
  exists rest,
    events_of (learning_cycle env config) h = EvQuery learning_outcomes_query [] :: rest.
Proof.
  unfold learning_cycle, collect_learning_outcomes.
  rewrite events_bind. unfold bind at 1, call.
  destruct (db_learning_outcomes env h) as [rows|e].
  - destruct (map_m _ rows _) as [[outs|e] es].
    + eexists. reflexivity.
    + eexists. reflexivity.
  - eexists. reflexivity.
Qed.

Lemma loop_iteration_cases h :
  loop_iteration env config h =
    match learning_cycle env config h with
    | (Ok _, es) => (Ok tt, es)
    | (Raise e, es) =>
        (Ok tt, es ++ [EvLogError ("Error in continuous learning loop: " ++ exn_str e);
                       EvSleep (VInt 60)])
    end.
Proof.
  unfold loop_iteration, try_except.
  destruct (learning_cycle env config h) as [[[]|e] es]; reflexivity.
Qed.

Lemma loop_iteration_ok h : outcome_of (loop_iteration env config) h = Ok tt.
Proof.
  unfold outcome_of. rewrite loop_iteration_cases.
  destruct (learning_cycle env config h) as [[[]|e] es]; reflexivity.
Qed.

Lemma iteration_starts_with_collection h :
  exists rest,
    events_of (loop_iteration env config) h = EvQuery learning_outcomes_query [] :: rest.
Proof.
  destruct (cycle_starts_with_collection h) as [rest Hr].
  unfold events_of in *. rewrite loop_iteration_cases.
  destruct (learning_cycle env config h) as [[[]|e] es]; simpl in *; subst es;
    eexists; reflexivity.
Qed.

Lemma iterate_succ n h :
  iterate env config (S n) h =
    (outcome_of (iterate env config n) (h ++ events_of (loop_iteration env config) h),
     events_of (loop_iteration env config) h
       ++ events_of (iterate env config n)
                    (h ++ events_of (loop_iteration env config) h)).
Proof.
  simpl iterate. unfold bind.
  pose proof (loop_iteration_ok h) as Hok. unfold outcome_of, events_of in *.
  destruct (loop_iteration env config h) as [r es]; simpl in *. subst r.
  destruct (iterate env config n (h ++ es)); reflexivity.
Qed.

Lemma events_iterate_succ n h :
  events_of (iterate env config (S n)) h =
    events_of (loop_iteration env config) h
      ++ events_of (iterate env config n)
                   (h ++ events_of (loop_iteration env config) h).
Proof. unfold events_of at 1. rewrite iterate_succ. reflexivity. Qed.

Lemma iterate_ok n : forall h, outcome_of (iterate env config n) h = Ok tt.
Proof.
  induction n as [|n IH]; intros h; [reflexivity|].
  unfold outcome_of at 1. rewrite iterate_succ. apply IH.
Qed.

Lemma continuous_learning_loop_ok n h :
  outcome_of (continuous_learning_loop env config n) h = Ok tt.
Proof.
  unfold continuous_learning_loop, outcome_of, bind, logger_info, emit.
  pose proof (iterate_ok n (h ++ [EvLogInfo "Starting continuous learning loop"])) as H.
  unfold outcome_of in H.
  destruct (iterate env config n _) as [r es]; simpl in *. exact H.
Qed.

End LoopFacts.

(** C7. A cycle of [continuous_learning_loop] that raises does not end the
    loop: the failure is logged, nothing more of the cycle runs (its sleep is
    not reached), the loop sleeps 60 seconds and the next iteration starts
    with the collection query; no number of iterations ends in an
    exception.  A cycle that completes ends with the configured sleep, 300
    seconds when [learning_interval] is not configured, which is longer than
    the 60 seconds of recovery. *)
Theorem loop_survives_failed_cycle env config n h e es :
  learning_cycle env config h = (Raise e, es) ->
  let recovery := [EvLogError ("Error in continuous learning loop: " ++ exn_str e);
                   EvSleep (VInt 60)] in
  loop_iteration env config h = (Ok tt, es ++ recovery)
  /\ Forall not_a_sleep es
  /\ (exists rest,
         events_of (iterate env config (S (S n))) h
         = (es ++ recovery) ++ EvQuery learning_outcomes_query [] :: rest)
  /\ (forall k h', outcome_of (continuous_learning_loop env config k) h' = Ok tt)
  /\ (forall h' es',
         learning_cycle env config h' = (Ok tt, es') ->
         exists es0,
           es' = es0 ++ [EvSleep (dict_get_default config "learning_interval" (VInt 300))])
  /\ (dict_get config "learning_interval" = None ->
      dict_get_default config "learning_interval" (VInt 300) = VInt 300)
  /\ (60 < 300)%Z.
Proof.
  intros Hfail recovery.
  assert (Hit : loop_iteration env config h = (Ok tt, es ++ recovery)).
  { rewrite loop_iteration_cases, Hfail. reflexivity. }
  split; [exact Hit|]. split; [apply (failed_cycle_never_sleeps env config h e es Hfail)|].
  split; [|split; [|split; [|split]]].
  - assert (Hev : events_of (loop_iteration env config) h = es ++ recovery)
      by (unfold events_of; rewrite Hit; reflexivity).
    rewrite !events_iterate_succ, Hev.
    destruct (iteration_starts_with_collection env config (h ++ es ++ recovery))
      as [rest Hr].
    rewrite Hr. eexists. simpl. reflexivity.
  - intros k h'. apply continuous_learning_loop_ok.
  - intros h' es' Hok. apply (completed_cycle_sleeps env config h' tt es' Hok).
  - intros Hnone. unfold dict_get_default. rewrite Hnone. reflexivity.
  - lia.
Qed.

Lemma loop_survives_witness :
  loop_iteration unreachable_store_env SELF_IMPROVEMENT_CONFIG []
  = (Ok tt, [EvQuery learning_outcomes_query []]
            ++ [EvLogError "Error in continuous learning loop: store timed out";
                EvSleep (VInt 60)])
  /\ exists rest,
      events_of (iterate unreachable_store_env SELF_IMPROVEMENT_CONFIG 2) []
      = ([EvQuery learning_outcomes_query []]
         ++ [EvLogError "Error in continuous learning loop: store timed out";
             EvSleep (VInt 60)])
        ++ EvQuery learning_outcomes_query [] :: rest.
Proof.
  destruct (loop_survives_failed_cycle unreachable_store_env SELF_IMPROVEMENT_CONFIG
              0 [] store_timeout [EvQuery learning_outcomes_query []] eq_refl)
    as (H1 & _ & H3 & _).
  split; [exact H1|exact H3].
Defined.


(** * Part III: further properties of the engine *)

(** ** Pattern analysis *)

(** X1. [analyze_patterns] calls no analyser for an empty batch and
    returns no pattern; for a non-empty batch that it completes, it has
    called the five analysers once each, in order, on the whole batch, and
    returns five patterns of the five types in that order, each scored by
    [calculate_confidence] of its own payload. *)
Theorem analyze_patterns_reports_five_kinds env outcomes h patterns es :
  analyze_patterns env outcomes h = (Ok patterns, es) ->
  (outcomes = [] -> patterns = [] /\ es = [])
  /\ (outcomes <> [] ->
      map pattern_type patterns = pattern_types
      /\ es = [ EvAnalyze analyze_success_factors outcomes;
                EvAnalyze analyze_failure_modes outcomes;
                EvAnalyze analyze_resource_patterns outcomes;
                EvAnalyze analyze_agent_patterns outcomes;
                EvAnalyze analyze_temporal_patterns outcomes ]
      /\ Forall (fun p => pattern_confidence p = calculate_confidence (pattern_data p))
                patterns).
Proof.
  destruct outcomes as [|o outcomes].
  - simpl. unfold ret. intros [= <- <-]. split; [split; reflexivity|].
    intros H; contradiction H; reflexivity.
  - intros Hrun. split; [discriminate|]. intros _. revert Hrun.
    unfold analyze_patterns, analyze_one, bind, call, ret.
    repeat match goal with
           | |- context [run_analyzer env ?a ?t ?o] =>
               destruct (run_analyzer env a t o); simpl; [|discriminate]
           end.
    intros [= <- <-]. repeat split. repeat constructor.
Qed.

Lemma analyze_patterns_witness :
  map pattern_type
      (match outcome_of (analyze_patterns failing_registry_env sample_outcomes) [] with
       | Ok patterns => patterns
       | Raise _ => []
       end) = pattern_types.
Proof.
  destruct (analyze_patterns failing_registry_env sample_outcomes [])
    as [r es] eqn:E.
  assert (Hok : exists patterns, r = Ok patterns).
  { revert E. vm_compute. intros [= <- _]. eexists. reflexivity. }
  destruct Hok as [patterns ->].
  destruct (analyze_patterns_reports_five_kinds failing_registry_env sample_outcomes []
              patterns es E) as [_ H].
  unfold outcome_of. rewrite E. simpl fst. apply H.
  vm_compute. discriminate.
Defined.

(** ** Model updates *)

Lemma for_each_stops {A : Type} (body : A -> M unit) before x after :
  forall h e es1,
    for_each body before h = (Ok tt, es1) ->
    outcome_of (body x) (h ++ es1) = Raise e ->
    for_each body (before ++ x :: after) h
    = (Raise e, es1 ++ events_of (body x) (h ++ es1)).
Proof.
  induction before as [|y before IH]; intros h e es1; simpl.
  - unfold ret. intros [= <-]. rewrite app_nil_r. simpl.
    unfold outcome_of, events_of, bind. intros Hx.
    destruct (body x h) as [r es]; simpl in *. subst r. reflexivity.
  - unfold bind at 1 2. destruct (body y h) as [[[]|e'] esy]; [|discriminate].
    destruct (for_each body before (h ++ esy)) as [r es'] eqn:Eb.
    intros [= -> <-]. rewrite app_assoc. intros Hx.
    rewrite (IH _ _ _ Eb Hx). rewrite <- !app_assoc. reflexivity.
Qed.

Lemma for_each_calls_ok {A : Type} (ev : A -> event) (answer : A -> trace -> result unit) l :
  forall h,
    (forall l1 a l2, l = l1 ++ a :: l2 -> answer a (h ++ map ev l1) = Ok tt) ->
    for_each (fun a => call (ev a) (answer a)) l h = (Ok tt, map ev l).
Proof.
  induction l as [|a l IH]; intros h Hall; [reflexivity|].
  simpl. unfold bind, call at 1.
  pose proof (Hall [] a l eq_refl) as Ha. simpl in Ha. rewrite app_nil_r in Ha.
  rewrite Ha, IH; [reflexivity|].
  intros l1 b l2 ->. rewrite <- app_assoc. apply (Hall (a :: l1) b l2). reflexivity.
Qed.

(** X2. [update_learning_models] touches nothing for an empty batch.  For a
    non-empty batch it prepares the training data once and updates the four
    models in order; the updates are not isolated from each other: when one
    raises, the exception leaves the method and the later models are not
    updated. *)
Theorem update_learning_models_stops_at_first_failure
        env outcomes h training before u after e :
  outcomes <> [] ->
  model_updaters = before ++ u :: after ->
  run_prepare_training_data env h outcomes = Ok training ->
  (forall l1 v l2,
      before = l1 ++ v :: l2 ->
      run_updater env v
        ((h ++ [EvPrepareTraining outcomes]) ++ map (fun w => EvUpdate w training) l1)
        training = Ok tt) ->
  run_updater env u
    ((h ++ [EvPrepareTraining outcomes]) ++ map (fun w => EvUpdate w training) before)
    training = Raise e ->
  update_learning_models env outcomes h
  = (Raise e,
     EvPrepareTraining outcomes :: map (fun w => EvUpdate w training) (before ++ [u]))
  /\ update_learning_models env [] h = (Ok tt, []).
Proof.
  intros Hne Hsplit Hprep Hbefore Hu. split; [|reflexivity].
  destruct outcomes as [|o outcomes]; [contradiction Hne; reflexivity|].
  unfold update_learning_models, bind at 1, call at 1. rewrite Hprep.
  fold model_updaters. rewrite Hsplit.
  pose proof (for_each_calls_ok (fun w => EvUpdate w training)
                (fun w t => run_updater env w t training) before
                (h ++ [EvPrepareTraining (o :: outcomes)]) Hbefore) as Hb.
  rewrite (for_each_stops _ before u after _ e _ Hb).
  - unfold events_of, call. simpl snd. rewrite map_app. reflexivity.
  - unfold outcome_of, call. simpl fst. exact Hu.
Qed.

Lemma update_learning_models_witness :
  update_learning_models failing_registry_env sample_outcomes []
  = (Raise registry_down,
     EvPrepareTraining sample_outcomes
       :: map (fun w => EvUpdate w (VStr "training batch"))
              ([update_success_prediction_model] ++ [update_resource_estimation_model]))
  /\ update_learning_models failing_registry_env [] [] = (Ok tt, []).
Proof.
  apply (update_learning_models_stops_at_first_failure failing_registry_env
           sample_outcomes [] (VStr "training batch")
           [update_success_prediction_model] update_resource_estimation_model
           [update_quality_prediction_model; update_agent_performance_model]
           registry_down).
  - vm_compute. discriminate.
  - reflexivity.
  - reflexivity.
  - intros l1 v l2 H. destruct l1 as [|w l1].
    + injection H as <- _. reflexivity.
    + destruct l1; discriminate H.
  - reflexivity.
Defined.

(** ** The gate of the generator *)

Lemma gather_improvements_events env patterns :
  forall h gathered es,
    gather_improvements env patterns h = (Ok gathered, es) ->
    es = flat_map generator_call (filter clears_gate patterns).
Proof.
  induction patterns as [|p rest IH]; intros h gathered es; simpl.
  - unfold ret. intros [= _ <-]. reflexivity.
  - destruct (pattern_confidence p <? 0.7)%float eqn:Ec.
    + intros H. unfold clears_gate at 1. rewrite Ec. simpl. apply (IH _ _ _ H).
    + destruct (generator_for (pattern_type p)) as [g|] eqn:Eg.
      * unfold bind at 1, call.
        destruct (run_generator env g h (pattern_data p)) as [found|e]; [|discriminate].
        unfold bind at 1.
        destruct (gather_improvements env rest _) as [[more|e] es'] eqn:Er;
          [|discriminate].
        unfold ret. intros [= _ <-]. rewrite app_nil_r.
        unfold clears_gate at 1. rewrite Ec, Eg. simpl.
        unfold generator_call at 1. rewrite Eg. simpl.
        f_equal. apply (IH _ _ _ Er).
      * intros H. unfold clears_gate at 1. rewrite Ec, Eg. simpl. apply (IH _ _ _ H).
Qed.

(** X3. When [generate_improvements] returns, the generators it has called
    are those of the patterns that are not below 0.7 and whose type has a
    generator, once each and in pattern order; a pattern below the gate or
    of an unknown type is skipped without a call and without an error. *)
Theorem generate_improvements_calls_gated_generators env patterns h improvements es :
  generate_improvements env patterns h = (Ok improvements, es) ->
  es = flat_map generator_call (filter clears_gate patterns).
Proof.
  rewrite generate_improvements_sorts.
  destruct (gather_improvements env patterns h) as [[gathered|e] es'] eqn:E;
    [|discriminate].
  intros [= _ <-]. apply (gather_improvements_events _ _ _ _ _ E).
Qed.

Lemma generate_improvements_calls_witness :
  [EvGenerate generate_failure_mode_improvements (VStr "timeouts")]
  = flat_map generator_call
      (filter clears_gate
         [ success_pattern 0.5;
           {| pattern_type := "failure_modes"; pattern_data := VStr "timeouts";
              pattern_confidence := 0.7 |};
           {| pattern_type := "seasonal"; pattern_data := VNone;
              pattern_confidence := 1 |} ]).
Proof.
  apply (generate_improvements_calls_gated_generators (finding_env [log_trim])
           [ success_pattern 0.5;
             {| pattern_type := "failure_modes"; pattern_data := VStr "timeouts";
                pattern_confidence := 0.7 |};
             {| pattern_type := "seasonal"; pattern_data := VNone;
                pattern_confidence := 1 |} ]
           [] [log_trim]).
  vm_compute. reflexivity.
Defined.

(** X4. A batch in which every pattern is below 0.7 yields the empty list
    of proposals, no generator being called, whatever the collaborators
    would answer. *)
Theorem low_confidence_batch_yields_nothing env patterns h :
  Forall (fun p => (pattern_confidence p <? 0.7)%float = true) patterns ->
  generate_improvements env patterns h = (Ok [], []).
Proof.
  intros Hlow. rewrite generate_improvements_sorts.
  assert (E : gather_improvements env patterns h = (Ok [], [])).
  { induction Hlow as [|p rest Hp _ IH]; simpl; [reflexivity|].
    rewrite Hp. exact IH. }
  rewrite E. reflexivity.
Qed.

Lemma low_confidence_batch_witness :
  generate_improvements (finding_env [cache_tuning])
                        [success_pattern 0.5; success_pattern 0.5] []
  = (Ok [], []).
Proof.
  apply low_confidence_batch_yields_nothing.
  repeat constructor.
Defined.

Lemma gate_below_128 :
  forallb (fun k => Bool.eqb (confidence_at (Z.of_nat k) <? 0.7)%float
                             (Z.of_nat k <? 70)%Z)
          (seq 0 128) = true.
Proof. vm_compute. reflexivity. Qed.

(** How the confidence meets the gate: the confidence of a list payload
    is below 0.7 exactly when the list has fewer than 70 elements, and that
    of any other payload is always below it. *)
Lemma confidence_below_gate data :
  (sample_size data < 2 ^ 63)%Z ->
  (calculate_confidence data <? 0.7)%float = negb (has_70_observations data).
Proof.
  intros Hs. destruct data as [| | | | |l|];
    try (unfold calculate_confidence; destruct (truthy _); reflexivity).
  rewrite ScoreFacts.calculate_confidence_list. simpl in Hs.
  unfold has_70_observations. rewrite <- Z.ltb_antisym.
  destruct (Z_lt_le_dec (Z.of_nat (List.length l)) 128) as [L|G].
  - apply eqb_prop.
    apply (ScoreFacts.forallb_seq_Z
             (fun n => Bool.eqb (confidence_at n <? 0.7)%float (n <? 70)%Z) 128
             gate_below_128).
    lia.
  - rewrite ScoreFacts.confidence_at_saturated by lia.
    symmetry. apply Z.ltb_ge. lia.
Qed.

Lemma confidence_of_other_payloads data :
  match data with
  | VList _ => True
  | _ => fle (calculate_confidence data) 0.01
  end.
Proof.
  destruct data; try exact I;
    unfold fle, calculate_confidence; destruct (truthy _); reflexivity.
Qed.

(** X5. Only list payloads of at least 70 observations are acted on: for
    patterns scored by [calculate_confidence], as [analyze_patterns] builds
    them, the generators [generate_improvements] has called when it returns
    are those of the patterns whose payload is a list of 70 elements or more
    (and whose type has a generator), once each and in pattern order; a
    pattern whose payload is not a list has a confidence of at most 0.01
    and is skipped. *)
Theorem only_lists_of_70_are_acted_on env patterns h improvements es :
  Forall (fun p => pattern_confidence p = calculate_confidence (pattern_data p)
                   /\ (sample_size (pattern_data p) < 2 ^ 63)%Z) patterns ->
  generate_improvements env patterns h = (Ok improvements, es) ->
  es = flat_map generator_call
         (filter (fun p => has_70_observations (pattern_data p)) patterns)
  /\ Forall (fun p => clears_gate p = true ->
                      exists l, pattern_data p = VList l /\ (70 <= List.length l)%nat)
            patterns
  /\ Forall (fun p => match pattern_data p with
                      | VList _ => True
                      | _ => fle (pattern_confidence p) 0.01 /\ clears_gate p = false
                      end) patterns.
Proof.
  intros Hscored Hgen.
  assert (Hgate : Forall (fun p => (pattern_confidence p <? 0.7)%float
                                   = negb (has_70_observations (pattern_data p)))
                         patterns).
  { apply Forall_forall. rewrite Forall_forall in Hscored. intros p Hp.
    destruct (Hscored p Hp) as [-> Hs]. apply confidence_below_gate, Hs. }
  split; [|split].
  - rewrite generate_improvements_sorts in Hgen.
    destruct (gather_improvements env patterns h) as [[gathered|e] es'] eqn:E;
      [|discriminate].
    injection Hgen as _ <-.
    rewrite (gather_improvements_events _ _ _ _ _ E).
    clear E Hscored. induction Hgate as [|p rest Hp _ IH]; [reflexivity|].
    cbn [filter].
    assert (Hc : clears_gate p
                 = has_70_observations (pattern_data p)
                   && match generator_for (pattern_type p) with
                      | Some _ => true
                      | None => false
                      end).
    { unfold clears_gate. rewrite Hp, negb_involutive. reflexivity. }
    rewrite Hc.
    destruct (has_70_observations (pattern_data p)); cbn [andb]; [|exact IH].
    destruct (generator_for (pattern_type p)) eqn:Eg; cbn [flat_map].
    + rewrite IH. reflexivity.
    + assert (Hn : generator_call p = [])
        by (unfold generator_call; rewrite Eg; reflexivity).
      rewrite Hn, IH. reflexivity.
  - apply Forall_forall. rewrite Forall_forall in Hgate. intros p Hp Hc.
    unfold clears_gate in Hc. rewrite (Hgate p Hp), negb_involutive in Hc.
    apply andb_prop in Hc. destruct Hc as [Hc _].
    destruct (pattern_data p) as [| | | | |l|]; try discriminate Hc.
    exists l. split; [reflexivity|]. simpl in Hc. apply Z.leb_le in Hc. lia.
  - apply Forall_forall. rewrite Forall_forall in Hscored, Hgate. intros p Hp.
    destruct (Hscored p Hp) as [Hconf _]. specialize (Hgate p Hp).
    pose proof (confidence_of_other_payloads (pattern_data p)) as Hsmall.
    unfold clears_gate. rewrite Hgate, Hconf.
    destruct (pattern_data p); try exact I; split; try exact Hsmall; reflexivity.
Qed.

Lemma only_lists_of_70_witness :
  [EvGenerate generate_success_factor_improvements (VList (repeat (VStr "observation") 80))]
  = flat_map generator_call
      (filter (fun p => has_70_observations (pattern_data p)) scored_patterns).
Proof.
  apply (only_lists_of_70_are_acted_on failing_registry_env scored_patterns
           [] [cache_tuning; shard_split]).
  - unfold scored_patterns.
    repeat (constructor; [split; [reflexivity|vm_compute; reflexivity]|]).
    constructor.
  - vm_compute. reflexivity.
Defined.

Lemma confidence_nonneg_below_128 :
  forallb (fun k => (0 <=? confidence_at (Z.of_nat k))%float) (seq 0 128) = true.
Proof. vm_compute. reflexivity. Qed.

(** X6. The confidence of every payload lies in [[0, 1]]. *)
Theorem calculate_confidence_in_unit_interval data :
  (sample_size data < 2 ^ 63)%Z ->
  fle 0 (calculate_confidence data) /\ fle (calculate_confidence data) 1.
Proof.
  intros Hs. destruct (truthy data) eqn:Ht.
  - destruct (calculate_confidence_truthy data Ht) as [-> H1].
    split; [|apply ScoreFacts.confidence_at_le_one].
    destruct (Z_lt_le_dec (sample_size data) 128) as [L|G].
    + apply (ScoreFacts.forallb_seq_Z (fun n => (0 <=? confidence_at n)%float) 128
               confidence_nonneg_below_128). lia.
    + rewrite ScoreFacts.confidence_at_saturated by lia. reflexivity.
  - unfold calculate_confidence. rewrite Ht. split; reflexivity.
Qed.

Lemma calculate_confidence_interval_witness :
  fle 0 (calculate_confidence (VDict [("cpu", VFloat 0.9)]%string))
  /\ fle (calculate_confidence (VDict [("cpu", VFloat 0.9)]%string)) 1.
Proof.
  apply calculate_confidence_in_unit_interval. vm_compute. reflexivity.
Defined.

(** ** The store adapter *)

Lemma dict_get_set d key v key' :
  dict_get (dict_set d key v) key'
  = if (key =? key')%string then Some v else dict_get d key'.
Proof.
  induction d as [|[k w] d IH]; simpl.
  - reflexivity.
  - destruct (String.eqb_spec k key) as [->|Hk]; simpl.
    + destruct (key =? key')%string; reflexivity.
    + rewrite IH. destruct (String.eqb_spec k key') as [->|Hk'].
      * destruct (String.eqb_spec key key') as [->|]; [contradiction Hk|]; reflexivity.
      * reflexivity.
Qed.

Lemma dict_set_keys d key v :
  NoDup (map fst d) -> NoDup (map fst (dict_set d key v))
  /\ forall k, In k (map fst (dict_set d key v)) <-> k = key \/ In k (map fst d).
Proof.
  induction d as [|[k w] d IH]; simpl; intros Hd.
  - split; [constructor; [intros []|constructor]|]. intros k. intuition congruence.
  - inversion Hd as [|? ? Hk Hd']; subst.
    destruct (String.eqb_spec k key) as [->|Hne]; simpl.
    + split; [constructor; assumption|]. intros k'. intuition congruence.
    + destruct (IH Hd') as [Hn Hin]. split.
      * constructor; [|exact Hn]. rewrite Hin. intros [E|E]; [congruence|contradiction].
      * intros k'. rewrite Hin. intuition congruence.
Qed.

Lemma fold_dict_set rows :
  forall d,
    NoDup (map fst d) ->
    let d' := fold_left (fun d row => dict_set d (metric_name row) (avg_value row)) rows d in
    NoDup (map fst d')
    /\ forall name,
        dict_get d' name
        = fold_left (fun found row =>
                       if (metric_name row =? name)%string
                       then Some (avg_value row) else found)
                    rows (dict_get d name).
Proof.
  induction rows as [|row rows IH]; intros d Hd; simpl.
  - split; [exact Hd|reflexivity].
  - destruct (dict_set_keys d (metric_name row) (avg_value row) Hd) as [Hn _].
    destruct (IH _ Hn) as [H1 H2]. split; [exact H1|].
    intros name. rewrite H2, dict_get_set. reflexivity.
Qed.

(** X7. [get_resource_metrics] sends one query and returns a dictionary
    without repeated keys in which every metric name maps to the value of
    the last row that carries it (a later row replaces an earlier one of the
    same name), and a name of no row is absent; when the query raises, so
    does the method. *)
Theorem get_resource_metrics_last_row_wins env pid h :
  match db_resource_metrics env h pid with
  | Ok rows =>
      exists d,
        get_resource_metrics env pid h = (Ok d, [EvQuery resource_metrics_query [pid]])
        /\ NoDup (map fst d)
        /\ forall name, dict_get d name = last_value rows name
  | Raise e =>
      get_resource_metrics env pid h = (Raise e, [EvQuery resource_metrics_query [pid]])
  end.
Proof.
  unfold get_resource_metrics, bind, call, ret.
  destruct (db_resource_metrics env h pid) as [rows|e]; [|reflexivity].
  eexists. split; [reflexivity|].
  destruct (fold_dict_set rows [] (NoDup_nil _)) as [H1 H2].
  split; [exact H1|exact H2].
Qed.

Lemma get_quality_metrics_cases env pid h :
  get_quality_metrics env pid h
  = match db_quality_metrics env h pid with
    | Ok row => (Ok [ ("total_artifacts", total_artifacts row);
                      ("average_quality", avg_quality row) ]%string,
                 [EvQuery quality_metrics_query [pid]])
    | Raise e => (Raise e, [EvQuery quality_metrics_query [pid]])
    end.
Proof.
  unfold get_quality_metrics, bind, call, ret.
  destruct (db_quality_metrics env h pid); reflexivity.
Qed.

Lemma get_resource_metrics_events env pid h :
  events_of (get_resource_metrics env pid) h = [EvQuery resource_metrics_query [pid]].
Proof.
  unfold events_of, get_resource_metrics, bind, call, ret.
  destruct (db_resource_metrics env h pid); reflexivity.
Qed.

Lemma map_m_rows env rows :
  forall h outcomes es,
    map_m (fun row =>
             resource_metrics <- get_resource_metrics env (row_project_id row) ;;
             quality_metrics <- get_quality_metrics env (row_project_id row) ;;
             ret {| project_id := row_project_id row;
                    outcome_type := row_outcome_type row;
                    success_score := py_max 0 (py_min 1 (row_impact_score row));
                    completion_time := row_completion_hours row;
                    resource_utilization := resource_metrics;
                    quality_metrics := quality_metrics;
                    lessons_learned := or_empty (row_lessons_learned row);
                    patterns_identified := or_empty (row_patterns_identified row);
                    improvement_suggestions := or_empty (row_recommendations row);
                    timestamp := row_created_at row |})%monad
          rows h = (Ok outcomes, es) ->
    map project_id outcomes = map row_project_id rows
    /\ es = flat_map metric_queries rows.
Proof.
  induction rows as [|row rows IH]; intros h outcomes es; simpl.
  - unfold ret. intros [= <- <-]. split; reflexivity.
  - unfold bind at 1.
    match goal with |- context [bind ?m ?f h] => destruct (bind m f h) as [[o|e] es1] eqn:Eo end;
      [|discriminate].
    unfold bind at 1.
    destruct (map_m _ rows (h ++ es1)) as [[outs|e] es2] eqn:Em; [|discriminate].
    unfold ret. intros [= <- <-]. rewrite app_nil_r.
    destruct (IH _ _ _ Em) as [IH1 IH2].
    revert Eo. unfold bind at 1.
    pose proof (get_resource_metrics_events env (row_project_id row) h) as Hr.
    unfold events_of in Hr.
    destruct (get_resource_metrics env (row_project_id row) h) as [[rm|e] er];
      simpl in Hr; subst er; [|discriminate].
    unfold bind at 1. rewrite get_quality_metrics_cases.
    destruct (db_quality_metrics env _ (row_project_id row)) as [qrow|e]; [|discriminate].
    unfold ret. intros [= <- <-]. simpl. rewrite IH1, IH2. split; reflexivity.
Qed.

(** X8. When [collect_learning_outcomes] returns, it returns one outcome
    per row in row order, with the rows' project identifiers, and it has
    sent the outcome query followed, row by row, by one resource query and
    one quality query for the row's project. *)
Theorem collect_learning_outcomes_queries_per_row env h outcomes es :
  collect_learning_outcomes env h = (Ok outcomes, es) ->
  exists rows,
    db_learning_outcomes env h = Ok rows
    /\ map project_id outcomes = map row_project_id rows
    /\ es = EvQuery learning_outcomes_query [] :: flat_map metric_queries rows.
Proof.
  unfold collect_learning_outcomes, bind at 1, call.
  destruct (db_learning_outcomes env h) as [rows|e]; [|discriminate].
  destruct (map_m _ rows _) as [r es'] eqn:Em. intros [= -> <-].
  exists rows. split; [reflexivity|].
  destruct (map_m_rows env rows _ _ _ Em) as [H1 H2].
  split; [exact H1|]. simpl. rewrite H2. reflexivity.
Qed.

Lemma collect_learning_outcomes_witness :
  exists rows,
    db_learning_outcomes (store_env sample_rows) [] = Ok rows
    /\ map project_id sample_outcomes = map row_project_id rows
    /\ [ EvQuery learning_outcomes_query [];
         EvQuery resource_metrics_query ["p1"%string];
         EvQuery quality_metrics_query ["p1"%string];
         EvQuery resource_metrics_query ["p2"%string];
         EvQuery quality_metrics_query ["p2"%string];
         EvQuery resource_metrics_query ["p3"%string];
         EvQuery quality_metrics_query ["p3"%string] ]
       = EvQuery learning_outcomes_query [] :: flat_map metric_queries rows.
Proof.
  apply (collect_learning_outcomes_queries_per_row (store_env sample_rows) []).
  vm_compute. reflexivity.
Defined.

(** X9. Collection is all or nothing: when the resource query fails for
    the project of some row, [collect_learning_outcomes] raises and returns
    no outcome at all, also none for the rows whose queries succeeded. *)
Theorem collection_is_all_or_nothing env h rows pid e :
  db_learning_outcomes env h = Ok rows ->
  In pid (map row_project_id rows) ->
  (forall h', db_resource_metrics env h' pid = Raise e) ->
  exists e' es, collect_learning_outcomes env h = (Raise e', es).
Proof.
  intros Hrows Hin Hfail.
  destruct (collect_learning_outcomes env h) as [[outcomes|e'] es] eqn:E;
    [exfalso|exists e', es; reflexivity].
  revert E. unfold collect_learning_outcomes, bind at 1, call. rewrite Hrows.
  destruct (map_m _ rows _) as [r es'] eqn:Em. intros [= -> _].
  apply map_m_ok in Em.
  apply in_map_iff in Hin. destruct Hin as (row & <- & Hrow).
  clear Hrows. revert Hrow Hfail.
  induction Em as [|row' o rows outs (h' & es1 & Hb) _ IH];
    intros Hrow Hfail; [contradiction|].
  destruct Hrow as [->|Hrow]; [|apply (IH Hrow Hfail)].
  revert Hb. unfold bind at 1. unfold get_resource_metrics at 1, bind at 1, call.
  rewrite Hfail. discriminate.
Qed.

Lemma collection_all_or_nothing_witness :
  exists e' es,
    collect_learning_outcomes
      {| db_learning_outcomes := fun _ => Ok sample_rows;
         db_resource_metrics := fun _ pid =>
           if (pid =? "p3")%string then Raise store_timeout else Ok [];
         db_quality_metrics := fun _ _ =>
           Ok {| total_artifacts := VInt 3; avg_quality := VFloat 0.8 |};
         run_analyzer := fun _ _ _ => Ok VNone;
         run_generator := fun _ _ _ => Ok [];
         run_implementer := fun _ _ _ => Ok tt;
         run_record_improvement := fun _ _ => Ok tt;
         run_prepare_training_data := fun _ _ => Ok VNone;
         run_updater := fun _ _ _ => Ok tt;
         run_system_health_check := fun _ => Ok tt |} []
    = (Raise e', es).
Proof.
  apply (collection_is_all_or_nothing _ [] sample_rows "p3" store_timeout).
  - reflexivity.
  - right; right; left; reflexivity.
  - intros h'. reflexivity.
Defined.

(** ** Scores *)

Lemma level_of_high label : level_of label = High <-> label = "high"%string.
Proof.
  unfold level_of.
  destruct (String.eqb_spec label "low") as [->|];
    [split; discriminate|].
  destruct (String.eqb_spec label "medium") as [->|];
    [split; discriminate|].
  destruct (String.eqb_spec label "high") as [->|]; [tauto|].
  split; [discriminate|contradiction].
Qed.

Lemma level_of_low label : level_of label = Low <-> label = "low"%string.
Proof.
  unfold level_of.
  destruct (String.eqb_spec label "low") as [->|]; [tauto|].
  destruct (String.eqb_spec label "medium") as [->|]; [split; [discriminate|congruence]|].
  destruct (String.eqb_spec label "high") as [->|]; [split; [discriminate|congruence]|].
  split; [discriminate|contradiction].
Qed.

Lemma score_of_levels_bounds a b :
  (0 <=? score_of_levels a b)%float = true
  /\ (score_of_levels a b <=? 1)%float = true
  /\ ((score_of_levels a b =? 1)%float = true <-> a = High /\ b = Low)
  /\ ((score_of_levels a b =? 0)%float = true <-> a = Unrecognized \/ b = Unrecognized).
Proof.
  split; [destruct a, b; vm_compute; reflexivity|].
  split; [destruct a, b; vm_compute; reflexivity|].
  split; destruct a, b; vm_compute; split; intros H;
    try reflexivity; try discriminate H;
    try (destruct H as [H1 H2]; try discriminate H1; discriminate H2);
    try (destruct H as [H|H]; discriminate H);
    try (split; reflexivity); try (left; reflexivity); try (right; reflexivity).
Qed.

(** X10. The ranking score of every proposal lies in [[0, 1]]; it is [1.0]
    exactly for high impact at low effort and [0.0] exactly when one of the
    two labels is not on the scale. *)
Theorem ranking_score_range x :
  fle 0 (ranking_score x) /\ fle (ranking_score x) 1
  /\ ((ranking_score x =? 1)%float = true <->
      expected_impact x = "high"%string /\ implementation_effort x = "low"%string)
  /\ ((ranking_score x =? 0)%float = true <-> ~ recognized x).
Proof.
  unfold fle. rewrite ranking_score_levels.
  destruct (score_of_levels_bounds (level_of (expected_impact x))
                                   (level_of (implementation_effort x)))
    as (H0 & H1 & Hone & Hzero).
  split; [exact H0|]. split; [exact H1|]. split.
  - rewrite Hone, level_of_high, level_of_low. reflexivity.
  - rewrite Hzero, !level_of_unrecognized. unfold recognized.
    destruct (in_dec string_dec (expected_impact x) scale);
      destruct (in_dec string_dec (implementation_effort x) scale); tauto.
Qed.

(** X11. A raw score that is not below [1.0] is stored as [1.0], and only
    such a score is: besides the values from 1 upwards this covers a NaN,
    which compares below nothing. *)
Theorem success_score_saturates raw :
  (py_max 0 (py_min 1 raw) = 1%float <-> (raw <? 1)%float = false)
  /\ ((raw =? raw)%float = false -> py_max 0 (py_min 1 raw) = 1%float).
Proof.
  assert (Hiff : py_max 0 (py_min 1 raw) = 1%float <-> (raw <? 1)%float = false).
  { unfold py_max, py_min. destruct (raw <? 1)%float eqn:E1.
    - split; [|discriminate]. destruct (0 <? raw)%float.
      + intros ->. vm_compute in E1. discriminate E1.
      + intros H. apply (f_equal (fun z => (z <? 1)%float)) in H.
        vm_compute in H. discriminate H.
    - split; reflexivity. }
  split; [exact Hiff|].
  intros Hnan. apply Hiff.
  destruct (raw <? 1)%float eqn:E; [|reflexivity].
  rewrite (PyFloatFacts.ltb_eqb_refl _ _ E) in Hnan. discriminate Hnan.
Qed.

Lemma success_score_saturates_witness :
  py_max 0 (py_min 1 PrimFloat.nan) = 1%float.
Proof.
  destruct (success_score_saturates PrimFloat.nan) as [_ H].
  apply H. vm_compute. reflexivity.
Defined.

(** ** Composition of the stages *)

Lemma filter_sorted {A : Type} (R : A -> A -> Prop) (keep : A -> bool) l :
  StronglySorted R l -> StronglySorted R (filter keep l).
Proof.
  induction 1 as [|x l Hs IH Hx]; simpl; [constructor|].
  destruct (keep x); [|exact IH].
  constructor; [exact IH|].
  rewrite Forall_forall in *. intros y Hy. apply filter_In in Hy. apply Hx, Hy.
Qed.

(** X12. The executor follows the ranking: fed with what
    [generate_improvements] returned, [execute_safe_improvements] attempts
    the eligible proposals in descending order of score, whatever the
    collaborators do. *)
Theorem attempts_follow_the_ranking env patterns h improvements es h' :
  generate_improvements env patterns h = (Ok improvements, es) ->
  StronglySorted ranked_no_lower
    (attempted (events_of (execute_safe_improvements env improvements) h'))
  /\ attempted (events_of (execute_safe_improvements env improvements) h')
     = filter safe_to_apply improvements.
Proof.
  intros Hgen. rewrite attempted_execute_safe_improvements.
  split; [|reflexivity].
  apply filter_sorted. apply (generate_improvements_sorted _ _ _ _ _ Hgen).
Qed.

Lemma attempts_follow_the_ranking_witness :
  StronglySorted ranked_no_lower
    (attempted (events_of (execute_safe_improvements
                             (finding_env [pool_resize; log_trim; cache_tuning])
                             [cache_tuning; pool_resize; log_trim]) []))
  /\ attempted (events_of (execute_safe_improvements
                             (finding_env [pool_resize; log_trim; cache_tuning])
                             [cache_tuning; pool_resize; log_trim]) [])
     = filter safe_to_apply [cache_tuning; pool_resize; log_trim].
Proof.
  apply (attempts_follow_the_ranking
           (finding_env [pool_resize; log_trim; cache_tuning])
           [success_pattern 0.8] []
           [cache_tuning; pool_resize; log_trim]
           [EvGenerate generate_success_factor_improvements
                       (VList [VStr "pairing"; VStr "small batches"])]).
  vm_compute. reflexivity.
Defined.

(** ** Cadence of the loop *)

Lemma count_sleeps_app es1 es2 :
  count_sleeps (es1 ++ es2) = count_sleeps es1 + count_sleeps es2.
Proof. unfold count_sleeps. rewrite filter_app, length_app. reflexivity. Qed.

Lemma count_sleeps_none es : Forall not_a_sleep es -> count_sleeps es = 0.
Proof.
  unfold count_sleeps, not_a_sleep. induction 1 as [|ev es Hev _ IH]; [reflexivity|].
  simpl. rewrite Hev. exact IH.
Qed.

Lemma sleeps_on_return_bind {A B : Type} (m : M A) (f : A -> M B) :
  emits not_a_sleep m -> (forall a, sleeps_on_return (f a)) ->
  sleeps_on_return (bind m f).
Proof.
  intros Hm Hf h. specialize (Hm h). apply count_sleeps_none in Hm.
  unfold events_of, outcome_of, bind in *.
  destruct (m h) as [[a|e] es]; simpl in *; [|exact Hm].
  specialize (Hf a (h ++ es)). unfold events_of, outcome_of in Hf.
  destruct (f a (h ++ es)) as [r es']; simpl in *.
  rewrite count_sleeps_app, Hm, Hf. reflexivity.
Qed.

Lemma asyncio_sleep_on_return delay : sleeps_on_return (asyncio_sleep delay).
Proof.
  intros h. unfold asyncio_sleep, events_of, outcome_of.
  destruct delay as [| |n| | | |]; try destruct (n <? float_overflow_bound)%Z;
    reflexivity.
Qed.

Lemma learning_cycle_sleeps_on_return env config :
  sleeps_on_return (learning_cycle env config).
Proof.
  unfold learning_cycle.
  apply sleeps_on_return_bind; [apply collect_never_sleeps|intros outcomes].
  apply sleeps_on_return_bind; [apply analyze_never_sleeps|intros patterns].
  apply sleeps_on_return_bind; [apply generate_never_sleeps|intros recs].
  apply sleeps_on_return_bind; [apply execute_never_sleeps|intros _].
  apply sleeps_on_return_bind; [apply update_never_sleeps|intros _].
  apply sleeps_on_return_bind; [apply health_check_never_sleeps|intros _].
  apply asyncio_sleep_on_return.
Qed.

Lemma loop_iteration_sleeps_once env config :
  sleeps_exactly 1 (loop_iteration env config).
Proof.
  intros h. pose proof (learning_cycle_sleeps_on_return env config h) as Hc.
  unfold events_of, outcome_of in *. rewrite loop_iteration_cases.
  destruct (learning_cycle env config h) as [[[]|e] es]; simpl in *; [exact Hc|].
  rewrite count_sleeps_app, Hc. reflexivity.
Qed.

Lemma iterate_sleeps env config n : sleeps_exactly n (iterate env config n).
Proof.
  induction n as [|n IH]; intros h; [reflexivity|].
  rewrite events_iterate_succ, count_sleeps_app.
  rewrite (loop_iteration_sleeps_once env config h), IH. reflexivity.
Qed.

Lemma count_sleeps_zero es : count_sleeps es = 0 -> Forall not_a_sleep es.
Proof.
  unfold count_sleeps, not_a_sleep. induction es as [|ev es IH]; [constructor|].
  simpl. destruct (is_sleep ev) eqn:E; [discriminate|].
  intros H. constructor; [exact E|apply IH, H].
Qed.

(** X13. Every iteration of the loop ends with the one call of
    [asyncio.sleep] that returns in it, and makes no other: the call has the
    configured [learning_interval] (300 when absent) as its delay after a
    cycle that completed, taken from the configuration as it is, and 60
    after a cycle that raised.  Hence the first [n] iterations contain
    exactly [n] such calls. *)
Theorem iteration_ends_with_its_only_sleep env config n h :
  (exists es d,
      events_of (loop_iteration env config) h = es ++ [EvSleep d]
      /\ Forall not_a_sleep es
      /\ d = match outcome_of (learning_cycle env config) h with
             | Ok _ => dict_get_default config "learning_interval" (VInt 300)
             | Raise _ => VInt 60
             end)
  /\ count_sleeps (events_of (continuous_learning_loop env config n) h) = n.
Proof.
  split.
  - pose proof (learning_cycle_sleeps_on_return env config h) as Hcount.
    unfold events_of, outcome_of in *. rewrite loop_iteration_cases.
    destruct (learning_cycle env config h) as [[[]|e] es] eqn:Ec; simpl in *.
    + destruct (completed_cycle_sleeps env config h tt es Ec) as [es0 ->].
      exists es0. eexists. split; [reflexivity|]. split; [|reflexivity].
      rewrite count_sleeps_app in Hcount. apply count_sleeps_zero.
      change (count_sleeps [EvSleep (dict_get_default config "learning_interval" (VInt 300))])
        with 1 in Hcount.
      lia.
    + exists (es ++ [EvLogError ("Error in continuous learning loop: " ++ exn_str e)]).
      exists (VInt 60). rewrite <- app_assoc. split; [reflexivity|].
      split; [|reflexivity]. apply Forall_app. split.
      * apply (failed_cycle_never_sleeps env config h e es Ec).
      * constructor; [reflexivity|constructor].
  - unfold continuous_learning_loop. rewrite events_bind.
    unfold logger_info, emit. rewrite count_sleeps_app.
    rewrite (iterate_sleeps env config n). reflexivity.
Qed.

Lemma returns_only_if_bind {A B : Type} (Q : Prop) (m : M A) (f : A -> M B) :
  (forall a, returns_only_if Q (f a)) -> returns_only_if Q (bind m f).
Proof.
  intros Hf h b es. unfold bind.
  destruct (m h) as [[a|e] es1]; [|discriminate].
  destruct (f a (h ++ es1)) as [r es2] eqn:Ef. intros [= -> _].
  apply (Hf a _ _ _ Ef).
Qed.

Lemma asyncio_sleep_returns_only_if delay :
  returns_only_if (numeric delay = true) (asyncio_sleep delay).
Proof.
  intros h a es. unfold asyncio_sleep.
  destruct delay as [| |n| | | |]; try destruct (n <? float_overflow_bound)%Z;
    unfold emit, raise; intros H; try reflexivity; discriminate H.
Qed.

(** X14. A [learning_interval] that is not a number does not stop the loop
    either, but no cycle completes under it: every cycle raises, at the
    latest at its sleep, and every iteration ends with the error line and
    the recovery sleep of 60 seconds. *)
Theorem non_numeric_interval_is_survived env config h :
  numeric (dict_get_default config "learning_interval" (VInt 300)) = false ->
  exists e es,
    learning_cycle env config h = (Raise e, es)
    /\ loop_iteration env config h
       = (Ok tt, es ++ [EvLogError ("Error in continuous learning loop: " ++ exn_str e);
                        EvSleep (VInt 60)]).
Proof.
  intros Hbad. rewrite loop_iteration_cases.
  destruct (learning_cycle env config h) as [[[]|e] es] eqn:Ec.
  - exfalso. revert Ec.
    assert (H : returns_only_if
                  (numeric (dict_get_default config "learning_interval" (VInt 300)) = true)
                  (learning_cycle env config)).
    { unfold learning_cycle.
      repeat (apply returns_only_if_bind; intro).
      apply asyncio_sleep_returns_only_if. }
    intros Ec. rewrite (H _ _ _ Ec) in Hbad. discriminate Hbad.
  - exists e, es. split; reflexivity.
Qed.

Lemma non_numeric_interval_witness :
  exists e es,
    learning_cycle quiet_env [("learning_interval", VStr "5m")]%string [] = (Raise e, es)
    /\ loop_iteration quiet_env [("learning_interval", VStr "5m")]%string []
       = (Ok tt, es ++ [EvLogError ("Error in continuous learning loop: " ++ exn_str e);
                        EvSleep (VInt 60)]).
Proof.
  apply non_numeric_interval_is_survived. reflexivity.
Defined.
